(** * MotorDashboard: the dashboard coordinator of gym-electric-motor

    A shallow embedding of
    [gym_electric_motor/visualization/motor_dashboard.py].

    The class owns an ordered list of plots, an update cadence, a lazily
    created matplotlib figure and a dark-mode flag.  Everything it does is
    a call to a collaborator (matplotlib or one of the plots), so the
    embedding is a small state-and-exception monad that also records, in
    order, every call the dashboard makes.  Whether a collaborator raises
    is decided by an oracle that sees the calls made so far; the theorems
    say which behaviour holds for every oracle and which one needs
    collaborators that return normally. *)

From Stdlib Require Import ZArith List String Bool Arith Lia.
Import ListNotations.

Local Open Scope string_scope.
Local Open Scope list_scope.

(** ** Python values and exceptions *)

(** The exceptions that can leave a method of the dashboard.
    [ExternalError] stands for whatever a collaborator raised. *)
Inductive PyExn : Type :=
| AssertionError (msg : string)
| TypeError
| ValueError
| ZeroDivisionError
| AttributeError
| IndexError
| ExternalError.

Inductive Outcome (A : Type) : Type :=
| Ok (a : A)
| Raise (e : PyExn).
Arguments Ok {A} a.
Arguments Raise {A} e.

(** A class object: its name and the names of its proper ancestors. *)
Record PyClass : Type := mkClass {
  cls_name : string;
  cls_bases : list string
}.

(** The values that can occur in the [plots] argument of the constructor
    and in [self._plots]. *)
#[warnings="-register-all"]
Inductive PyValue : Type :=
| PyStr (s : string)
| PyInt (z : Z)
| PyNone
| PyClassObj (c : PyClass)
| PyInstance (c : PyClass) (args : list PyValue).

(** The builtin [issubclass(v, base)]: a [TypeError] unless [v] is a
    class. *)
Definition issubclass (v : PyValue) (base : PyClass) : Outcome bool :=
  match v with
  | PyClassObj c =>
      Ok (String.eqb (cls_name c) (cls_name base)
          || existsb (String.eqb (cls_name base)) (cls_bases c))
  | _ => Raise TypeError
  end.

(** [str.startswith] *)
Definition startswith (s p : string) : bool := String.prefix p s.

(** [a % b] on Python integers: the sign follows the divisor, and a zero
    divisor raises. *)
Definition py_mod (a b : Z) : Outcome Z :=
  if Z.eqb b 0 then Raise ZeroDivisionError else Ok (Z.modulo a b).

(** [l[i]] *)
Definition py_index {A : Type} (l : list A) (i : nat) : Outcome A :=
  match nth_error l i with
  | Some x => Ok x
  | None => Raise IndexError
  end.

(** Modelled from the spec: the module [motor_dashboard_plots] (imported
    as [mdp]) is not among the sources.  The dashboard uses from it the
    base class [MotorDashboardPlot] and the three plot variants (state
    value, reward, action value) derived from it; calling one of the
    classes builds an instance. *)
Module mdp.

Definition MotorDashboardPlot : PyClass :=
  mkClass "MotorDashboardPlot" ["object"].
Definition RewardPlot : PyClass :=
  mkClass "RewardPlot" ["MotorDashboardPlot"; "object"].
Definition ActionPlot : PyClass :=
  mkClass "ActionPlot" ["MotorDashboardPlot"; "object"].
Definition StatePlot : PyClass :=
  mkClass "StatePlot" ["MotorDashboardPlot"; "object"].

End mdp.

(** Calling the class [c] with the arguments [args]. *)
Definition construct (c : PyClass) (args : list PyValue) : PyValue :=
  PyInstance c args.

(** ** matplotlib handles *)

Inductive Figure : Type := Fig (serial : nat).
Inductive Axis : Type := Ax (f : Figure) (row : nat).

(** What [plt.subplots] hands back as its second component: one axis
    object for a single row, an array of them otherwise. *)
Inductive PyAxes : Type :=
| OneAxes (a : Axis)
| AxesArray (l : list Axis).

Definition axes_of (f : Figure) (n : nat) : PyAxes :=
  if Nat.eqb n 1 then OneAxes (Ax f 0) else AxesArray (map (Ax f) (seq 0 n)).

(** [zip(l, axes)]: an axis object is not iterable. *)
Definition py_zip {A : Type} (l : list A) (axes : PyAxes)
  : Outcome (list (A * Axis)) :=
  match axes with
  | OneAxes _ => Raise TypeError
  | AxesArray la => Ok (combine l la)
  end.

(** ** The dashboard object *)

Record MotorDashboard : Type := mkDashboard {
  _update_cycle : Z;
  _figure : option Figure;
  _plots : list PyValue;
  _dark_mode : bool
}.

(** [not self._figure]: [None] is falsy, a figure object is truthy. *)
Definition py_not_figure (f : option Figure) : bool :=
  match f with None => true | Some _ => false end.

(** [self._figure.canvas] *)
Definition canvas_of (f : option Figure) : Outcome Figure :=
  match f with
  | Some fig => Ok fig
  | None => Raise AttributeError
  end.

(** ** Calls to collaborators *)

(** The arrays and environment modules handed through to the plots are
    never inspected by the dashboard: their type [PyObj] is a parameter.
    One constructor per call site of the source.  The float constants of
    [subplots_adjust(wspace=0.0, hspace=0.2)] and [pause(0.1)] and the
    keyword [sharex=True] are fixed in the source and left out.  The last
    two constructors are not calls to a collaborator: they mark the entry
    into the two private methods. *)
Inductive Event (PyObj : Type) : Type :=
| plt_ion
| plt_close
| plt_style_use (style : string)
| plt_subplots (nrows : nat)
| figure_subplots_adjust (f : Figure)
| plt_xlabel (label : string)
| plt_pause
| plot_initialize (plot : PyValue) (axis : PyAxes)
| plot_step (plot : PyValue) (k : Z) (state reference action reward : PyObj)
            (done : bool)
| plot_update (plot : PyValue)
| plot_reset (plot : PyValue)
| plot_set_modules (plot : PyValue) (ps rg rf : PyObj)
| matplotlib_get_backend
| canvas_draw (f : Figure)
| canvas_flush_events (f : Figure)
| enter_initialize
| enter_update.

Arguments plt_ion {PyObj}.
Arguments plt_close {PyObj}.
Arguments plt_style_use {PyObj}.
Arguments plt_subplots {PyObj}.
Arguments figure_subplots_adjust {PyObj}.
Arguments plt_xlabel {PyObj}.
Arguments plt_pause {PyObj}.
Arguments plot_initialize {PyObj}.
Arguments plot_step {PyObj}.
Arguments plot_update {PyObj}.
Arguments plot_reset {PyObj}.
Arguments plot_set_modules {PyObj}.
Arguments matplotlib_get_backend {PyObj}.
Arguments canvas_draw {PyObj}.
Arguments canvas_flush_events {PyObj}.
Arguments enter_initialize {PyObj}.
Arguments enter_update {PyObj}.

(** Two concrete collaborators: calls that never raise, and a backend
    with a fixed name. *)
Definition never_raises {PyObj : Type}
  : list (Event PyObj) -> Event PyObj -> bool := fun _ _ => false.
Definition backend_is {PyObj : Type} (name : string)
  : list (Event PyObj) -> string := fun _ => name.

(** Collaborators of which exactly the calls picked by [P] raise. *)
Definition raises_when {PyObj : Type} (P : Event PyObj -> bool)
  : list (Event PyObj) -> Event PyObj -> bool := fun _ e => P e.

Definition is_plt_ion {PyObj : Type} (e : Event PyObj) : bool :=
  match e with plt_ion => true | _ => false end.
Definition is_plot_reset {PyObj : Type} (e : Event PyObj) : bool :=
  match e with plot_reset _ => true | _ => false end.
Definition is_plot_initialize {PyObj : Type} (e : Event PyObj) : bool :=
  match e with plot_initialize _ _ => true | _ => false end.
Definition is_plot_set_modules {PyObj : Type} (e : Event PyObj) : bool :=
  match e with plot_set_modules _ _ _ _ => true | _ => false end.

Section Dashboard.

Variable PyObj : Type.
Abbreviation Event := (Event PyObj).

(** The collaborators: [raises h e] tells whether the call [e], made
    after the calls [h], raises; [backend h] is what
    [matplotlib.get_backend()] answers after [h]. *)
Variable raises : list Event -> Event -> bool.
Variable backend : list Event -> string.

(** Collaborators that always return normally. *)
Definition benign : Prop := forall h e, raises h e = false.

(** Some call to a collaborator raises. *)
Definition some_call_raised : Prop := exists h e, raises h e = true.

(** ** The monad

    A computation reads the object and the calls made so far and gives
    an outcome, the object as it is left (also when an exception
    propagates: assignments are not undone) and the calls it made. *)
Definition M (A : Type) : Type :=
  MotorDashboard -> list Event -> Outcome A * MotorDashboard * list Event.

Definition ret {A : Type} (a : A) : M A :=
  fun self _ => (Ok a, self, []).

Definition bind {A B : Type} (m : M A) (f : A -> M B) : M B :=
  fun self h =>
    match m self h with
    | (Ok a, self1, es1) =>
        match f a self1 (h ++ es1) with
        | (r, self2, es2) => (r, self2, es1 ++ es2)
        end
    | (Raise e, self1, es1) => (Raise e, self1, es1)
    end.

Notation "x <- m ;; k" := (bind m (fun x => k))
  (at level 61, m at next level, right associativity).
Notation "m ;; k" := (bind m (fun _ => k))
  (at level 61, right associativity).

Definition lift {A : Type} (r : Outcome A) : M A :=
  fun self _ => (r, self, []).

Definition get_self : M MotorDashboard :=
  fun self _ => (Ok self, self, []).

Definition note (e : Event) : M unit :=
  fun self _ => (Ok tt, self, [e]).

(** A call whose result is ignored. *)
Definition call (e : Event) : M unit :=
  fun self h =>
    (if raises h e then Raise ExternalError else Ok tt, self, [e]).

(** A call whose result [r] is used. *)
Definition call_ret {A : Type} (e : Event) (r : list Event -> Outcome A)
  : M A :=
  fun self h =>
    (if raises h e then Raise ExternalError else r h, self, [e]).

(** [assert cond, msg] *)
Definition py_assert (cond : bool) (msg : string) : M unit :=
  lift (if cond then Ok tt else Raise (AssertionError msg)).

(** [for x in l: body(x)] for a body that does not change [l]. *)
Fixpoint for_each {A : Type} (l : list A) (body : A -> M unit) : M unit :=
  match l with
  | [] => ret tt
  | x :: l' => body x ;; for_each l' body
  end.

(** [self._figure = f] *)
Definition set_figure (f : Figure) : M unit :=
  fun self _ =>
    (Ok tt,
     mkDashboard (_update_cycle self) (Some f) (_plots self)
                 (_dark_mode self),
     []).

(** [self._plots.append(p)] *)
Definition plots_append (p : PyValue) : M unit :=
  fun self _ =>
    (Ok tt,
     mkDashboard (_update_cycle self) (_figure self) (_plots self ++ [p])
                 (_dark_mode self),
     []).

(** [plt.subplots(n, sharex=True)]: a fresh figure and its axes; zero
    rows are refused by matplotlib. *)
Definition subplots (n : nat) : M (Figure * PyAxes) :=
  call_ret (plt_subplots n)
    (fun h =>
       if Nat.eqb n 0 then Raise ValueError
       else let f := Fig (List.length h) in Ok (f, axes_of f n)).

(** ** The methods *)

(** The loop of [__init__] over the [plots] argument; the first branch
    is the one taken when [type(plot) is str]. *)
Definition init_plots (plots : list PyValue) : M unit :=
  for_each plots (fun plot =>
    match plot with
    | PyStr s =>
        if String.eqb s "reward" then
          plots_append (construct mdp.RewardPlot [])
        else if startswith s "action_" then
          plots_append (construct mdp.ActionPlot [plot])
        else
          plots_append (construct mdp.StatePlot [plot])
    | _ =>
        ok <- lift (issubclass plot mdp.MotorDashboardPlot) ;;
        py_assert ok EmptyString ;;
        plots_append plot
    end).

(** [MotorDashboard(plots, update_cycle, dark_mode)]: the new object, or
    the exception that left the constructor. *)
Definition __init__ (plots : list PyValue) (update_cycle : Z)
    (dark_mode : bool) (h : list Event)
  : Outcome MotorDashboard * list Event :=
  match (call plt_ion ;; init_plots plots)
          (mkDashboard update_cycle None [] dark_mode) h with
  | (Ok _, self, es) => (Ok self, es)
  | (Raise e, _, es) => (Raise e, es)
  end.

Definition reset : M unit :=
  self <- get_self ;;
  for_each (_plots self) (fun plot => call (plot_reset plot)).

Definition set_modules (ps rg rf : PyObj) : M unit :=
  self <- get_self ;;
  for_each (_plots self) (fun plot => call (plot_set_modules plot ps rg rf)).

Definition _initialize : M unit :=
  note enter_initialize ;;
  call plt_close ;;
  self <- get_self ;;
  py_assert (Nat.ltb 0 (List.length (_plots self)))
            "no plot variable selected" ;;
  (if _dark_mode self then call (plt_style_use "dark_background")
   else ret tt) ;;
  fa <- subplots (List.length (_plots self)) ;;
  set_figure (fst fa) ;;
  call (figure_subplots_adjust (fst fa)) ;;
  call (plt_xlabel "t/s") ;;
  if Nat.ltb (List.length (_plots self)) 2 then
    plot <- lift (py_index (_plots self) 0) ;;
    call (plot_initialize plot (snd fa)) ;;
    call plt_pause
  else
    pairs <- lift (py_zip (_plots self) (snd fa)) ;;
    for_each pairs (fun pa =>
      call (plot_initialize (fst pa) (OneAxes (snd pa)))) ;;
    call plt_pause.

Definition _update : M unit :=
  note enter_update ;;
  self <- get_self ;;
  for_each (_plots self) (fun plot => call (plot_update plot)) ;;
  name <- call_ret matplotlib_get_backend (fun h => Ok (backend h)) ;;
  (if String.eqb name "NbAgg" then
     canvas <- lift (canvas_of (_figure self)) ;;
     call (canvas_draw canvas)
   else ret tt) ;;
  canvas <- lift (canvas_of (_figure self)) ;;
  call (canvas_flush_events canvas).

Definition step (k : Z) (state reference action reward : PyObj)
    (done : bool) : M unit :=
  self <- get_self ;;
  (if py_not_figure (_figure self) then _initialize else ret tt) ;;
  self <- get_self ;;
  for_each (_plots self) (fun plot =>
    call (plot_step plot k state reference action reward done)) ;;
  r <- lift (py_mod (k + 1) (_update_cycle self)) ;;
  if Z.eqb r 0 then _update else ret tt.

(** ** What a run leaves behind *)

Definition outcome_of {A : Type} (r : Outcome A * MotorDashboard * list Event)
  : Outcome A := fst (fst r).
Definition self_of {A : Type} (r : Outcome A * MotorDashboard * list Event)
  : MotorDashboard := snd (fst r).
Definition calls_of {A : Type} (r : Outcome A * MotorDashboard * list Event)
  : list Event := snd r.

Definition returns {A : Type} (r : Outcome A) : bool :=
  match r with Ok _ => true | Raise _ => false end.

(** The calls of a complete surface creation on figure [f]. *)
Definition initialize_calls (self : MotorDashboard) (f : Figure)
  : list Event :=
  [enter_initialize; plt_close]
  ++ (if _dark_mode self then [plt_style_use "dark_background"] else [])
  ++ [plt_subplots (List.length (_plots self));
      figure_subplots_adjust f; plt_xlabel "t/s"]
  ++ map (fun pa => plot_initialize (fst pa) (OneAxes (Ax f (snd pa))))
         (combine (_plots self) (seq 0 (List.length (_plots self))))
  ++ [plt_pause].

(** The calls of a complete redraw on figure [f] under backend [name]. *)
Definition update_calls (self : MotorDashboard) (f : Figure) (name : string)
  : list Event :=
  [enter_update]
  ++ map plot_update (_plots self)
  ++ [matplotlib_get_backend]
  ++ (if String.eqb name "NbAgg" then [canvas_draw f] else [])
  ++ [canvas_flush_events f].

Definition is_initialize_call (e : Event) : bool :=
  match e with
  | enter_initialize | plt_close | plt_style_use _ | plt_subplots _
  | figure_subplots_adjust _ | plt_xlabel _ | plt_pause
  | plot_initialize _ _ => true
  | _ => false
  end.

Definition is_update_call (e : Event) : bool :=
  match e with
  | plot_update _ | matplotlib_get_backend
  | canvas_draw _ | canvas_flush_events _ => true
  | _ => false
  end.

Definition is_step_call (e : Event) : bool :=
  match e with plot_step _ _ _ _ _ _ _ => true | _ => false end.

(** How often a run entered [_update] and how often it asked matplotlib
    for a new figure. *)
Definition redraws (es : list Event) : nat :=
  List.length (filter (fun e => match e with enter_update => true
                                         | _ => false end) es).
Definition surfaces (es : list Event) : nat :=
  List.length (filter (fun e => match e with plt_subplots _ => true
                                         | _ => false end) es).

(** A caller that goes on calling [step] whatever the earlier calls did:
    the object after the last call and the calls of each [step]. *)
Fixpoint steps (ks : list Z) (state reference action reward : PyObj)
    (done : bool) (self : MotorDashboard) (h : list Event)
  : MotorDashboard * list (list Event) :=
  match ks with
  | [] => (self, [])
  | k :: ks' =>
      match step k state reference action reward done self h with
      | (_, self1, es) =>
          match steps ks' state reference action reward done self1
                      (h ++ es) with
          | (self2, ess) => (self2, es :: ess)
          end
      end
  end.

(** ** Predicates for the statements

    [post m self h Q]: running [m] on the object [self] after the calls
    [h] gives an outcome, an object and a list of calls that satisfy
    [Q]. *)
Definition post {A : Type} (m : M A) (self : MotorDashboard)
    (h : list Event)
    (Q : Outcome A -> MotorDashboard -> list Event -> Prop) : Prop :=
  Q (outcome_of (m self h)) (self_of (m self h)) (calls_of (m self h)).

(** Every call of [es] passes the test [P]. *)
Definition all_calls (P : Event -> bool) (es : list Event) : Prop :=
  forallb P es = true.

(** What a surface creation with [n] plots may call. *)
Definition initialize_call_ok (n : nat) (e : Event) : bool :=
  match e with
  | plt_subplots m => Nat.eqb m n && Nat.leb 1 n
  | _ => is_initialize_call e
  end.

Definition same_fields (self1 self : MotorDashboard) : Prop :=
  _update_cycle self1 = _update_cycle self
  /\ _plots self1 = _plots self
  /\ _dark_mode self1 = _dark_mode self.

(** The surface exists after the first statement of [step]: it was there
    before and nothing was called, or [_initialize] ran to its end. *)
Definition surface_ready (self self1 : MotorDashboard) (ei : list Event)
  : Prop :=
  match _figure self with
  | Some f => ei = [] /\ _figure self1 = Some f
  | None =>
      exists f, _figure self1 = Some f
        /\ ei = initialize_calls self f
        /\ _plots self <> []
  end.

(** The call that hands one step to one plot. *)
Definition fanout (k : Z) (state reference action reward : PyObj)
    (done : bool) (plot : PyValue) : Event :=
  plot_step plot k state reference action reward done.

(** The statements of [step] after the surface check. *)
Definition step_rest (k : Z) (state reference action reward : PyObj)
    (done : bool) : M unit :=
  self <- get_self ;;
  for_each (_plots self) (fun plot =>
    call (plot_step plot k state reference action reward done)) ;;
  r <- lift (py_mod (k + 1) (_update_cycle self)) ;;
  if Z.eqb r 0 then _update else ret tt.

(** The four ways the loop over the plots and the cadence test can go,
    for the step number [k] and the per-plot call [fan]. *)
Definition rest_cases (k : Z) (fan : PyValue -> Event)
    (self : MotorDashboard) (r : Outcome unit) (es : list Event) : Prop :=
  (exists pre x rest,
      _plots self = pre ++ x :: rest
      /\ es = map fan (pre ++ [x])
      /\ r = Raise ExternalError
      /\ some_call_raised)
  \/ (_update_cycle self = 0%Z
      /\ es = map fan (_plots self)
      /\ r = Raise ZeroDivisionError)
  \/ (_update_cycle self <> 0%Z
      /\ ((k + 1) mod _update_cycle self <> 0)%Z
      /\ es = map fan (_plots self)
      /\ r = Ok tt)
  \/ (_update_cycle self <> 0%Z
      /\ ((k + 1) mod _update_cycle self = 0)%Z
      /\ exists eu,
          es = map fan (_plots self) ++ eu
          /\ (exists rest, eu = enter_update :: rest
                           /\ all_calls is_update_call rest)
          /\ ((r = Raise ExternalError /\ some_call_raised)
              \/ (r = Ok tt
                  /\ exists f name,
                      _figure self = Some f
                      /\ eu = update_calls self f name))).

(** The ways a call of [step] can go: the surface creation fails, or the
    surface is ready and the rest runs. *)
Definition step_cases (k : Z) (fan : PyValue -> Event)
    (self : MotorDashboard) (r : Outcome unit)
    (self1 : MotorDashboard) (es : list Event) : Prop :=
  (_figure self = None
   /\ all_calls (initialize_call_ok (List.length (_plots self))) es
   /\ (exists rest, es = enter_initialize :: rest)
   /\ ((r = Raise ExternalError /\ some_call_raised)
       \/ (r = Raise (AssertionError "no plot variable selected")
           /\ _plots self = [] /\ self1 = self)))
  \/ exists ei er,
       es = ei ++ er
       /\ surface_ready self self1 ei
       /\ rest_cases k fan self1 r er.

(** What the part of [step] after the surface check may call. *)
Definition is_rest_call (e : Event) : bool :=
  match e with
  | enter_update => true
  | _ => is_step_call e || is_update_call e
  end.

(** The plot the specification promises for a tag string. *)
Definition spec_plot_for_tag (tag : string) : PyValue :=
  if String.eqb tag "reward" then PyInstance mdp.RewardPlot []
  else if startswith tag "action_" then PyInstance mdp.ActionPlot [PyStr tag]
  else PyInstance mdp.StatePlot [PyStr tag].

(** The loop of [__init__] as a function of the list built so far: the
    outcome and the list as it is left. *)
Fixpoint init_plots_pure (plots acc : list PyValue)
  : Outcome unit * list PyValue :=
  match plots with
  | [] => (Ok tt, acc)
  | PyStr s :: l => init_plots_pure l (acc ++ [spec_plot_for_tag s])
  | PyClassObj c :: l =>
      match issubclass (PyClassObj c) mdp.MotorDashboardPlot with
      | Ok true => init_plots_pure l (acc ++ [PyClassObj c])
      | Ok false => (Raise (AssertionError EmptyString), acc)
      | Raise e => (Raise e, acc)
      end
  | _ :: l => (Raise TypeError, acc)
  end.

(** ** Further vocabulary: the parts of the methods beyond the claims *)

(** What the loop of [__init__] lets through: a string, or a class that
    passes [issubclass(plot, mdp.MotorDashboardPlot)]. *)
Definition acceptable (v : PyValue) : bool :=
  match v with
  | PyStr _ => true
  | _ =>
      match issubclass v mdp.MotorDashboardPlot with
      | Ok true => true
      | _ => false
      end
  end.

(** What the loop appends for an element it lets through. *)
Definition appended_plot (v : PyValue) : PyValue :=
  match v with
  | PyStr s => spec_plot_for_tag s
  | _ => v
  end.

(** The exception an element that is not let through ends the
    constructor with: the failed [assert] for a class, the [TypeError] of
    [issubclass] for anything else. *)
Definition rejection (v : PyValue) : PyExn :=
  match v with
  | PyClassObj _ => AssertionError EmptyString
  | _ => TypeError
  end.

Definition fig_eqb (f g : Figure) : bool :=
  match f, g with Fig a, Fig b => Nat.eqb a b end.

(** [e] is a call on the canvas of another figure than [fig], or a
    [canvas.draw()] although the backend test [nb] was false. *)
Definition canvas_call_ok (nb : bool) (fig : option Figure) (e : Event)
  : bool :=
  match e with
  | canvas_draw f =>
      nb && match fig with Some g => fig_eqb g f | None => false end
  | canvas_flush_events f =>
      match fig with Some g => fig_eqb g f | None => false end
  | _ => true
  end.

Definition is_canvas_draw (e : Event) : bool :=
  match e with canvas_draw _ => true | _ => false end.

(** A style call is made in dark mode only, with the dark style. *)
Definition style_call_ok (dark : bool) (e : Event) : bool :=
  match e with
  | plt_style_use style => dark && String.eqb style "dark_background"
  | _ => true
  end.

(** A figure has been created exactly as often as [subplots_adjust] was
    called: it is the call made on the figure right after [plt.subplots]
    has returned it and [self._figure] has been assigned. *)
Definition is_adjust (e : Event) : bool :=
  match e with figure_subplots_adjust _ => true | _ => false end.
Definition creations (es : list Event) : nat :=
  List.length (filter is_adjust es).

(** Every [subplots_adjust] of [es] is on the figure [f]. *)
Definition adjust_on (f : Figure) (e : Event) : bool :=
  match e with
  | figure_subplots_adjust g => fig_eqb g f
  | _ => true
  end.

(** 1 when the object has a figure, 0 when it has none. *)
Definition has_figure (self : MotorDashboard) : nat :=
  match _figure self with Some _ => 1 | None => 0 end.

(** The public methods as a caller uses them after construction. *)
Inductive Method : Type :=
| call_reset
| call_set_modules (ps rg rf : PyObj)
| call_step (k : Z) (state reference action reward : PyObj) (done : bool).

Definition run_method (c : Method) : M unit :=
  match c with
  | call_reset => reset
  | call_set_modules ps rg rf => set_modules ps rg rf
  | call_step k state reference action reward done =>
      step k state reference action reward done
  end.

(** A caller that makes the calls [cs] one after the other, whatever
    the earlier ones did: the object at the end and all the calls to
    collaborators. *)
Fixpoint run_methods (cs : list Method) (self : MotorDashboard)
    (h : list Event) : MotorDashboard * list Event :=
  match cs with
  | [] => (self, [])
  | c :: cs' =>
      match run_method c self h with
      | (_, self1, es) =>
          match run_methods cs' self1 (h ++ es) with
          | (self2, es') => (self2, es ++ es')
          end
      end
  end.

(** The outcomes of the calls [cs] made one after the other. *)
Fixpoint outcomes (cs : list Method) (self : MotorDashboard)
    (h : list Event) : list (Outcome unit) :=
  match cs with
  | [] => []
  | c :: cs' =>
      match run_method c self h with
      | (r, self1, es) => r :: outcomes cs' self1 (h ++ es)
      end
  end.

(** The cadence of a step number: 1 when it redraws, 0 when not. *)
Definition redraw_due (cycle k : Z) : nat :=
  if Z.eqb cycle 0 then 0
  else if Z.eqb ((k + 1) mod cycle) 0 then 1 else 0.

(** ** Running the monad *)

Lemma bind_ok {A B : Type} (m : M A) (f : A -> M B) self h a self1 es1 :
  m self h = (Ok a, self1, es1) ->
  bind m f self h =
  (outcome_of (f a self1 (h ++ es1)), self_of (f a self1 (h ++ es1)),
   es1 ++ calls_of (f a self1 (h ++ es1))).
Proof.
  intros E. unfold bind. rewrite E.
  destruct (f a self1 (h ++ es1)) as [[r s] es]. reflexivity.
Qed.

Lemma bind_raise {A B : Type} (m : M A) (f : A -> M B) self h e self1 es1 :
  m self h = (Raise e, self1, es1) ->
  bind m f self h = (Raise e, self1, es1).
Proof. intros E. unfold bind. rewrite E. reflexivity. Qed.

Lemma run_eta {A : Type} (r : Outcome A * MotorDashboard * list Event) :
  r = (outcome_of r, self_of r, calls_of r).
Proof. destruct r as [[? ?] ?]. reflexivity. Qed.

Lemma for_each_cons {A : Type} (body : A -> M unit) a l self h :
  for_each (a :: l) body self h =
  match body a self h with
  | (Ok _, self1, es1) =>
      (outcome_of (for_each l body self1 (h ++ es1)),
       self_of (for_each l body self1 (h ++ es1)),
       es1 ++ calls_of (for_each l body self1 (h ++ es1)))
  | (Raise e, self1, es1) => (Raise e, self1, es1)
  end.
Proof.
  cbn [for_each]. unfold bind.
  destruct (body a self h) as [[[u|e] s1] es1]; [|reflexivity].
  destruct (for_each l body s1 (h ++ es1)) as [[r s] es]. reflexivity.
Qed.

(** A loop of calls leaves the object alone, makes the calls of the list
    in order and stops at the first one that raises. *)
Lemma for_each_call_run {A : Type} (f : A -> Event) (l : list A) self h :
  for_each l (fun x => call (f x)) self h = (Ok tt, self, map f l)
  \/ exists pre x post,
       l = pre ++ x :: post
       /\ raises (h ++ map f pre) (f x) = true
       /\ for_each l (fun x => call (f x)) self h
          = (Raise ExternalError, self, map f (pre ++ [x])).
Proof.
  revert h. induction l as [|a l IH]; intros h.
  - left. reflexivity.
  - rewrite for_each_cons.
    replace (call (f a) self h)
      with (if raises h (f a) then Raise ExternalError else Ok tt, self,
            [f a]) by reflexivity.
    destruct (raises h (f a)) eqn:Ea.
    + right. exists [], a, l. cbn [app map]. rewrite app_nil_r. auto.
    + destruct (IH (h ++ [f a])) as [E | (pre & x & post & -> & Er & E)];
        rewrite E.
      * left. reflexivity.
      * right. exists (a :: pre), x, post. cbn.
        rewrite <- app_assoc in Er. cbn in Er. auto.
Qed.

Lemma raised h e : raises h e = true -> some_call_raised.
Proof. intros H. exists h, e. exact H. Qed.

Lemma benign_quiet : benign -> ~ some_call_raised.
Proof. intros Hb (h & e & H). rewrite Hb in H. discriminate. Qed.

(** ** A small program logic *)

Lemma post_bind {A B : Type} (m : M A) (f : A -> M B) self h Q :
  post m self h (fun r self1 es1 =>
    match r with
    | Ok a => post (f a) self1 (h ++ es1)
                (fun r2 self2 es2 => Q r2 self2 (es1 ++ es2))
    | Raise e => Q (Raise e) self1 es1
    end) ->
  post (bind m f) self h Q.
Proof.
  unfold post, bind.
  destruct (m self h) as [[[a|e] self1] es1]; cbn; [|auto].
  destruct (f a self1 (h ++ es1)) as [[r self2] es2]. cbn. auto.
Qed.

Lemma post_ret {A : Type} (a : A) self h Q :
  Q (Ok a) self [] -> post (ret a) self h Q.
Proof. auto. Qed.

Lemma post_get_self self h Q :
  Q (Ok self) self [] -> post get_self self h Q.
Proof. auto. Qed.

Lemma post_note e self h Q :
  Q (Ok tt) self [e] -> post (note e) self h Q.
Proof. auto. Qed.

Lemma post_lift {A : Type} (r : Outcome A) self h Q :
  Q r self [] -> post (lift r) self h Q.
Proof. auto. Qed.

Lemma post_set_figure f self h Q :
  Q (Ok tt)
    (mkDashboard (_update_cycle self) (Some f) (_plots self)
                 (_dark_mode self)) [] ->
  post (set_figure f) self h Q.
Proof. auto. Qed.

Lemma post_plots_append p self h Q :
  Q (Ok tt)
    (mkDashboard (_update_cycle self) (_figure self) (_plots self ++ [p])
                 (_dark_mode self)) [] ->
  post (plots_append p) self h Q.
Proof. auto. Qed.

Lemma post_call e self h (Q : Outcome unit -> _) :
  (raises h e = true -> Q (Raise ExternalError) self [e]) ->
  (raises h e = false -> Q (Ok tt) self [e]) ->
  post (call e) self h Q.
Proof.
  unfold post, call. cbn. destruct (raises h e); auto.
Qed.

Lemma post_call_ret {A : Type} e (r : list Event -> Outcome A) self h Q :
  (raises h e = true -> Q (Raise ExternalError) self [e]) ->
  (raises h e = false -> Q (r h) self [e]) ->
  post (call_ret e r) self h Q.
Proof.
  unfold post, call_ret. cbn. destruct (raises h e); auto.
Qed.

Lemma post_loop {A : Type} (f : A -> Event) l self h
    (Q : Outcome unit -> _) :
  (forall pre x rest,
      l = pre ++ x :: rest ->
      raises (h ++ map f pre) (f x) = true ->
      Q (Raise ExternalError) self (map f (pre ++ [x]))) ->
  Q (Ok tt) self (map f l) ->
  post (for_each l (fun x => call (f x))) self h Q.
Proof.
  intros Hr Hok. unfold post.
  destruct (for_each_call_run f l self h)
    as [E | (pre & x & rest & Hl & Er & E)]; rewrite E; cbn; eauto.
Qed.

Lemma post_conseq {A : Type} (m : M A) self h (Q' Q : Outcome A -> _) :
  post m self h Q' ->
  (forall r self1 es, Q' r self1 es -> Q r self1 es) ->
  post m self h Q.
Proof. unfold post. auto. Qed.

(** One step of symbolic execution. *)
Ltac wp_step :=
  cbv beta iota;
  lazymatch goal with
  | |- post (bind _ _) _ _ _ => apply post_bind
  | |- post (ret _) _ _ _ => apply post_ret
  | |- post get_self _ _ _ => apply post_get_self
  | |- post (note _) _ _ _ => apply post_note
  | |- post (set_figure _) _ _ _ => apply post_set_figure
  | |- post (plots_append _) _ _ _ => apply post_plots_append
  | |- post (py_assert _ _) _ _ _ => unfold py_assert; apply post_lift
  | |- post (lift _) _ _ _ => apply post_lift
  | |- post (call _) _ _ _ => apply post_call; intros ?Hraise
  | |- post (call_ret _ _) _ _ _ => apply post_call_ret; intros ?Hraise
  | |- post (subplots _) _ _ _ =>
      unfold subplots; apply post_call_ret; intros ?Hraise
  | |- post (for_each _ (fun x => call _)) _ _ _ =>
      apply post_loop; [intros ?pre ?x ?rest ?Hl ?Hraise|]
  | |- post (if ?b then _ else _) _ _ _ => destruct b eqn:?
  end.

Ltac wp := repeat wp_step; cbv beta iota.

Ltac wp_fields :=
  repeat (wp_step;
          cbn [_plots _dark_mode _figure _update_cycle List.length
               Nat.ltb Nat.leb Nat.eqb fst snd axes_of py_index nth_error
               py_zip canvas_of py_not_figure]);
  cbv beta iota.

Ltac norm :=
  rewrite ?app_nil_r, <- ?app_assoc; cbn [app].

Lemma all_calls_In P es e : all_calls P es -> In e es -> P e = true.
Proof. unfold all_calls. rewrite forallb_forall. auto. Qed.

Lemma forallb_map_true {A : Type} (P : Event -> bool) (f : A -> Event) l :
  (forall x, P (f x) = true) -> forallb P (map f l) = true.
Proof.
  intros H. induction l as [|a l IH]; cbn; [reflexivity|].
  rewrite H, IH. reflexivity.
Qed.

Ltac calls_ok :=
  unfold all_calls;
  repeat (progress (rewrite ?forallb_app;
                    rewrite ?forallb_map_true by (intros; reflexivity);
                    cbn; rewrite ?Nat.eqb_refl));
  try reflexivity.

Lemma map_combine_map {A B C D : Type} (g : B -> C) (F : A -> C -> D)
    (l : list A) (l' : list B) :
  map (fun pa => F (fst pa) (snd pa)) (combine l (map g l'))
  = map (fun pa => F (fst pa) (g (snd pa))) (combine l l').
Proof.
  revert l'. induction l as [|a l IH]; intros [|b l']; cbn; try reflexivity.
  rewrite IH. reflexivity.
Qed.

(** ** The private methods, whatever the collaborators do *)

Lemma _update_any self h :
  post _update self h (fun r self1 es =>
    self1 = self
    /\ (exists rest, es = enter_update :: rest
                     /\ all_calls is_update_call rest)
    /\ match r with
       | Ok _ =>
           exists f, _figure self = Some f
             /\ es = update_calls self f
                      (backend (h ++ enter_update
                                  :: map plot_update (_plots self)))
       | Raise e =>
           (e = ExternalError /\ some_call_raised)
           \/ (e = AttributeError /\ _figure self = None)
       end).
Proof.
  unfold _update. wp;
    try (destruct (_figure self) as [f|] eqn:Ef; cbn [canvas_of]; wp);
    norm;
    (split; [reflexivity|];
     split; [eexists; split; [reflexivity|calls_ok]|]);
    eauto using raised.
  all: exists f; split; [reflexivity|]; unfold update_calls; cbn [app];
    rewrite ?app_nil_r, <- ?app_assoc in Heqb; cbn [app] in Heqb;
    rewrite Heqb; reflexivity.
Qed.

Lemma _initialize_any self h :
  post _initialize self h (fun r self1 es =>
    _update_cycle self1 = _update_cycle self
    /\ _plots self1 = _plots self
    /\ _dark_mode self1 = _dark_mode self
    /\ all_calls (initialize_call_ok (List.length (_plots self))) es
    /\ (exists rest, es = enter_initialize :: rest)
    /\ match r with
       | Ok _ =>
           exists f, _figure self1 = Some f
             /\ es = initialize_calls self f
             /\ _plots self <> []
       | Raise e =>
           (e = ExternalError /\ some_call_raised)
           \/ (e = AssertionError "no plot variable selected"
               /\ _plots self = [] /\ self1 = self)
       end).
Proof.
  destruct self as [uc fig plots dm].
  destruct plots as [|p [|q l]]; unfold _initialize; wp_fields; norm.
  all: repeat match goal with |- _ /\ _ => split end;
    try reflexivity; try calls_ok; eauto using raised.
  all: eexists; split; [reflexivity|]; split; [|discriminate].
  all: unfold initialize_calls;
    cbn [_plots _dark_mode List.length seq combine map app fst snd].
  all: try reflexivity.
  all: rewrite (map_combine_map _
                 (fun plot a => plot_initialize plot (OneAxes a)));
    reflexivity.
Qed.

(** ** What a call of [step] can do, whatever the collaborators do *)

Section StepCases.

Variables (k : Z) (state reference action reward : PyObj) (done : bool).

Lemma step_unfold :
  step k state reference action reward done =
  (self <- get_self ;;
   (if py_not_figure (_figure self) then _initialize else ret tt) ;;
   step_rest k state reference action reward done).
Proof. reflexivity. Qed.

Lemma step_rest_any self h f :
  _figure self = Some f ->
  post (step_rest k state reference action reward done) self h
    (fun r self1 es =>
       self1 = self
       /\ rest_cases k (fanout k state reference action reward done)
                     self r es).
Proof.
  destruct self as [uc fig plots dm]. cbn [_figure]. intros ->.
  unfold step_rest. wp_fields.
  - split; [reflexivity|]. left. exists pre, plot, rest.
    eauto using raised.
  - unfold py_mod. destruct (Z.eqb_spec uc 0) as [->|Huc]; cbv iota.
    + split; [reflexivity|]. right. left. norm. auto.
    + wp_fields.
      * eapply post_conseq; [apply _update_any|].
        cbv beta. intros r self1 es (-> & Hhd & Hr).
        split; [reflexivity|]. right. right. right.
        apply Z.eqb_eq in Heqb.
        split; [exact Huc|]. split; [exact Heqb|].
        exists es. norm. repeat split; auto.
        destruct r as [[]|e].
        -- right. split; [reflexivity|].
           destruct Hr as (f' & Hf & ->). eauto.
        -- destruct Hr as [[-> Hs]|[_ Hn]]; [auto|discriminate].
      * split; [reflexivity|]. right. right. left.
        apply Z.eqb_neq in Heqb. norm. auto.
Qed.

Lemma step_any self h :
  post (step k state reference action reward done) self h
    (fun r self1 es =>
       same_fields self1 self
       /\ step_cases k (fanout k state reference action reward done)
                     self r self1 es).
Proof.
  rewrite step_unfold. destruct self as [uc fig plots dm].
  destruct fig as [f|]; wp_fields.
  - eapply post_conseq; [apply (step_rest_any _ _ f); reflexivity|].
    cbv beta. intros r self1 es (-> & Hc).
    split; [repeat split|]. right. exists [], es. norm.
    repeat split; auto.
  - eapply post_conseq; [apply _initialize_any|].
    cbv beta. intros r self1 ei (Hu & Hp & Hd & Hall & Hhd & Hr).
    destruct r as [[]|e].
    + destruct Hr as (f & Hf & -> & Hne).
      eapply post_conseq; [apply (step_rest_any _ _ f); exact Hf|].
      cbv beta. intros r self2 es (-> & Hc).
      split; [repeat split; assumption|]. right.
      exists (initialize_calls (mkDashboard uc None plots dm) f), es.
      split; [norm; reflexivity|].
      split; [|exact Hc]. unfold surface_ready. cbn [_figure]. eauto.
    + split; [repeat split; assumption|]. left. norm.
      repeat split; auto.
      destruct Hr as [[-> Hs]|(-> & Hp0 & ->)]; auto.
Qed.

(** *** Counting redraws and surface creations *)

Lemma filter_none (P Q : Event -> bool) es :
  all_calls Q es -> (forall e, Q e = true -> P e = false) ->
  filter P es = [].
Proof.
  unfold all_calls. intros Hall HPQ.
  induction es as [|e es IH]; [reflexivity|].
  cbn in Hall. apply andb_true_iff in Hall as [He Hes].
  cbn. rewrite (HPQ e He). auto.
Qed.

Lemma redraws_app es1 es2 : redraws (es1 ++ es2) = redraws es1 + redraws es2.
Proof. unfold redraws. rewrite filter_app, length_app. reflexivity. Qed.

Lemma surfaces_app es1 es2 :
  surfaces (es1 ++ es2) = surfaces es1 + surfaces es2.
Proof. unfold surfaces. rewrite filter_app, length_app. reflexivity. Qed.

Lemma redraws_none Q es :
  all_calls Q es -> Q enter_update = false -> redraws es = 0.
Proof.
  intros Hall HQ. unfold redraws. erewrite filter_none; eauto.
  intros [] He; try reflexivity. congruence.
Qed.

Lemma surfaces_none Q es :
  all_calls Q es -> (forall n, Q (plt_subplots n) = false) ->
  surfaces es = 0.
Proof.
  intros Hall HQ. unfold surfaces. erewrite filter_none; eauto.
  intros [] He; try reflexivity. rewrite HQ in He. discriminate.
Qed.

Lemma fanout_calls l :
  all_calls is_step_call
    (map (fanout k state reference action reward done) l).
Proof. unfold all_calls. apply forallb_map_true. reflexivity. Qed.

Lemma initialize_calls_ok self f :
  all_calls is_initialize_call (initialize_calls self f).
Proof.
  unfold initialize_calls. destruct (_dark_mode self); calls_ok.
Qed.

Lemma redraws_initialize self f : redraws (initialize_calls self f) = 0.
Proof.
  eapply redraws_none; [apply initialize_calls_ok|reflexivity].
Qed.

Lemma surfaces_initialize self f : surfaces (initialize_calls self f) = 1.
Proof.
  unfold initialize_calls. rewrite !surfaces_app.
  rewrite (surfaces_none
             (fun e => match e with plot_initialize _ _ => true
                               | _ => false end)
             (map _ (combine _ _)));
    [|unfold all_calls; apply forallb_map_true; reflexivity|reflexivity].
  destruct (_dark_mode self); reflexivity.
Qed.

Lemma redraws_update self f name : redraws (update_calls self f name) = 1.
Proof.
  unfold update_calls. rewrite !redraws_app.
  rewrite (redraws_none is_update_call (map _ _));
    [|unfold all_calls; apply forallb_map_true; reflexivity|reflexivity].
  destruct (String.eqb name "NbAgg"); reflexivity.
Qed.

Lemma redraws_fanout l :
  redraws (map (fanout k state reference action reward done) l) = 0.
Proof. eapply redraws_none; [apply fanout_calls|reflexivity]. Qed.

Lemma initialize_calls_guard self f :
  _plots self <> [] ->
  all_calls (initialize_call_ok (List.length (_plots self)))
            (initialize_calls self f).
Proof.
  unfold initialize_calls.
  destruct (_plots self) as [|p l]; [congruence|].
  intros _. destruct (_dark_mode self); calls_ok.
Qed.

Lemma all_calls_app P (es1 es2 : list Event) :
  all_calls P es1 -> all_calls P es2 -> all_calls P (es1 ++ es2).
Proof.
  unfold all_calls. intros H1 H2. rewrite forallb_app, H1, H2. reflexivity.
Qed.

Lemma all_calls_weaken (P Q : Event -> bool) es :
  (forall e, P e = true -> Q e = true) -> all_calls P es -> all_calls Q es.
Proof.
  unfold all_calls. rewrite !forallb_forall. auto.
Qed.

(** The calls and the redraws of the part of [step] after the surface
    check. *)
Lemma rest_calls self r es :
  rest_cases k (fanout k state reference action reward done) self r es ->
  all_calls is_rest_call es
  /\ ((redraws es = 1
       /\ _update_cycle self <> 0%Z
       /\ ((k + 1) mod _update_cycle self = 0)%Z)
      \/ (redraws es = 0
          /\ (r = Ok tt ->
              _update_cycle self <> 0%Z
              /\ ((k + 1) mod _update_cycle self <> 0)%Z))).
Proof.
  assert (Hfan : forall l,
             all_calls is_rest_call
               (map (fanout k state reference action reward done) l)).
  { intros l. unfold all_calls. apply forallb_map_true. reflexivity. }
  intros [(pre & x & rest & Hl & -> & -> & Hs)
         |[(Hz & -> & ->)
         |[(Hnz & Hm & -> & ->)
         |(Hnz & Hm & eu & -> & (rest & -> & Hall) & Hr)]]].
  - rewrite redraws_fanout. split; [apply Hfan|].
    right. split; [reflexivity|discriminate].
  - rewrite redraws_fanout. split; [apply Hfan|].
    right. split; [reflexivity|discriminate].
  - rewrite redraws_fanout. split; [apply Hfan|].
    right. split; [reflexivity|]. auto.
  - split.
    + apply all_calls_app; [apply Hfan|].
      change (enter_update :: rest) with ([enter_update] ++ rest).
      apply all_calls_app; [reflexivity|].
      revert Hall. apply all_calls_weaken.
      intros [] He; try discriminate; reflexivity.
    + rewrite redraws_app, redraws_fanout.
      change (enter_update :: rest) with ([enter_update] ++ rest).
      rewrite redraws_app, (redraws_none _ _ Hall) by reflexivity.
      left. auto.
Qed.

(** The redraws and surface creations of a call of [step]. *)
Lemma step_counts self r self1 es :
  step_cases k (fanout k state reference action reward done)
             self r self1 es ->
  same_fields self1 self ->
  ((redraws es = 1
    /\ _update_cycle self <> 0%Z
    /\ ((k + 1) mod _update_cycle self = 0)%Z)
   \/ (redraws es = 0
       /\ (r = Ok tt ->
           _update_cycle self <> 0%Z
           /\ ((k + 1) mod _update_cycle self <> 0)%Z)))
  /\ (forall f, _figure self = Some f ->
        all_calls is_rest_call es /\ _figure self1 = Some f)
  /\ (forall n, In (plt_subplots n) es ->
        _figure self = None
        /\ n = List.length (_plots self) /\ 1 <= n).
Proof.
  assert (Hguard : forall n m es0,
             all_calls (initialize_call_ok m) es0 ->
             In (plt_subplots n) es0 -> n = m /\ 1 <= n).
  { intros n m es0 Hall Hin. apply (all_calls_In _ _ _ Hall) in Hin.
    cbn [initialize_call_ok] in Hin.
    apply andb_true_iff in Hin as [Hn H1].
    apply Nat.eqb_eq in Hn. apply Nat.leb_le in H1. subst n. auto. }
  intros Hc (Hu & Hp & Hd).
  destruct Hc as [(Hf & Hall & Hhd & Hr)|(ei & er & -> & Hready & Hrest)].
  - split; [|split].
    + right. split.
      * eapply redraws_none; [exact Hall|reflexivity].
      * intros ->. destruct Hr as [[Hr _]|[Hr _]]; discriminate.
    + intros f Hf'. congruence.
    + intros n Hin. split; [exact Hf|]. eauto.
  - apply rest_calls in Hrest as (Hcalls & Hrd).
    rewrite Hu in Hrd. unfold surface_ready in Hready.
    destruct (_figure self) as [f0|] eqn:Hfig.
    + destruct Hready as [-> Hf1]. cbn [app].
      split; [exact Hrd|]. split.
      * intros f Hf. inversion Hf; subst. auto.
      * intros n Hin. apply (all_calls_In _ _ _ Hcalls) in Hin.
        discriminate.
    + destruct Hready as (f & Hf1 & -> & Hne).
      split; [|split].
      * rewrite redraws_app, redraws_initialize. exact Hrd.
      * intros f' Hf'. discriminate.
      * intros n Hin. split; [reflexivity|].
        apply in_app_or in Hin as [Hin|Hin].
        -- eapply Hguard; [apply initialize_calls_guard; exact Hne|].
           exact Hin.
        -- apply (all_calls_In _ _ _ Hcalls) in Hin. discriminate.
Qed.

Lemma surface_ready_figure self self1 ei :
  surface_ready self self1 ei -> exists f, _figure self1 = Some f.
Proof.
  unfold surface_ready. destruct (_figure self) as [f|].
  - intros [_ H]. eauto.
  - intros (f & H & _). eauto.
Qed.

(** With collaborators that return and a plot or a surface at hand, a
    call of [step] fails at the cadence test when the cycle is zero and
    returns otherwise. *)
Lemma step_benign self h :
  benign ->
  _plots self <> [] \/ _figure self <> None ->
  exists self1 ei f,
    same_fields self1 self
    /\ surface_ready self self1 ei
    /\ _figure self1 = Some f
    /\ ((_update_cycle self = 0%Z
         /\ step k state reference action reward done self h
            = (Raise ZeroDivisionError, self1,
               ei ++ map (fanout k state reference action reward done)
                         (_plots self)))
        \/ (_update_cycle self <> 0%Z
            /\ exists name,
               step k state reference action reward done self h
               = (Ok tt, self1,
                  ei ++ map (fanout k state reference action reward done)
                            (_plots self)
                     ++ (if Z.eqb ((k + 1) mod _update_cycle self) 0
                         then update_calls self1 f name else [])))).
Proof.
  intros Hb Hready.
  pose proof (step_any self h) as H. unfold post in H.
  rewrite (run_eta (step k state reference action reward done self h)).
  destruct H as ((Hu & Hp & Hd) & Hc).
  set (r := outcome_of _) in *. set (self1 := self_of _) in *.
  set (es := calls_of _) in *. clearbody r self1 es.
  destruct Hc as [(Hf & Hall & Hhd & Hr)|(ei & er & -> & Hsr & Hrest)].
  - exfalso. destruct Hr as [[_ Hs]|(_ & Hnil & _)].
    + exact (benign_quiet Hb Hs).
    + destruct Hready as [Hne|Hne]; congruence.
  - destruct (surface_ready_figure _ _ _ Hsr) as [f Hf].
    exists self1, ei, f.
    split; [repeat split; assumption|]. split; [exact Hsr|].
    split; [exact Hf|]. unfold rest_cases in Hrest.
    rewrite Hu, Hp in Hrest.
    destruct Hrest as [(pre & x & rest & Hl & -> & -> & Hs)
         |[(Hz & -> & ->)
         |[(Hnz & Hm & -> & ->)
         |(Hnz & Hm & eu & -> & (rest & -> & Hall) & Hr)]]].
    + exfalso. exact (benign_quiet Hb Hs).
    + left. auto.
    + right. split; [exact Hnz|]. exists EmptyString.
      apply Z.eqb_neq in Hm. rewrite Hm, app_nil_r. reflexivity.
    + right. split; [exact Hnz|].
      destruct Hr as [[_ Hs]|(-> & f' & name & Hf' & Heu)].
      * exfalso. exact (benign_quiet Hb Hs).
      * exists name. rewrite Hm. cbn [Z.eqb].
        rewrite Heu. congruence.
Qed.

Lemma surfaces_fanout l :
  surfaces (map (fanout k state reference action reward done) l) = 0.
Proof. eapply surfaces_none; [apply fanout_calls|reflexivity]. Qed.

Lemma surfaces_update self f name : surfaces (update_calls self f name) = 0.
Proof.
  unfold update_calls. rewrite !surfaces_app.
  rewrite (surfaces_none is_update_call (map _ _));
    [|unfold all_calls; apply forallb_map_true; reflexivity|reflexivity].
  destruct (String.eqb name "NbAgg"); reflexivity.
Qed.

Lemma step_benign_counts self h :
  benign ->
  _plots self <> [] \/ _figure self <> None ->
  redraws (calls_of (step k state reference action reward done self h))
  = (if Z.eqb (_update_cycle self) 0 then 0
     else if Z.eqb ((k + 1) mod _update_cycle self) 0 then 1 else 0)
  /\ surfaces (calls_of (step k state reference action reward done self h))
     = (if py_not_figure (_figure self) then 1 else 0)
  /\ same_fields (self_of (step k state reference action reward done self h))
                 self
  /\ exists f,
       _figure (self_of (step k state reference action reward done self h))
       = Some f
       /\ (forall f0, _figure self = Some f0 -> f = f0).
Proof.
  intros Hb Hready.
  destruct (step_benign self h Hb Hready)
    as (self1 & ei & f & Hsame & Hsr & Hf & Hrun).
  assert (Hei : redraws ei = 0
                /\ surfaces ei = (if py_not_figure (_figure self)
                                  then 1 else 0)
                /\ (forall f0, _figure self = Some f0 -> f = f0)).
  { unfold surface_ready in Hsr. destruct (_figure self) as [f0|].
    - destruct Hsr as [-> Hf0]. repeat split.
      intros f1 Hf1. congruence.
    - destruct Hsr as (f1 & _ & -> & _).
      rewrite redraws_initialize, surfaces_initialize.
      repeat split. discriminate. }
  destruct Hei as (Hr0 & Hs0 & Hsame_fig).
  assert (Hend : same_fields self1 self
                 /\ exists f1, _figure self1 = Some f1
                      /\ (forall f0, _figure self = Some f0 -> f1 = f0)).
  { split; [exact Hsame|]. exists f. auto. }
  destruct Hrun as [(Hz & ->)|(Hnz & name & ->)];
    unfold calls_of, self_of; cbn [fst snd].
  - rewrite redraws_app, surfaces_app, redraws_fanout, surfaces_fanout.
    rewrite Hr0, Hs0, Hz. cbn [Z.eqb]. rewrite Nat.add_0_r. auto.
  - rewrite !redraws_app, !surfaces_app, redraws_fanout, surfaces_fanout.
    rewrite Hr0, Hs0. apply Z.eqb_neq in Hnz. rewrite Hnz.
    destruct (Z.eqb ((k + 1) mod _update_cycle self) 0).
    + rewrite redraws_update, surfaces_update. rewrite !Nat.add_0_r. auto.
    + cbn [redraws surfaces filter List.length]. rewrite !Nat.add_0_r. auto.
Qed.

End StepCases.

(** ** Several calls of [step] in a row *)

Section Episode.

Variables (state reference action reward : PyObj) (done : bool).

Lemma steps_cons k ks self h :
  steps (k :: ks) state reference action reward done self h =
  (fst (steps ks state reference action reward done
          (self_of (step k state reference action reward done self h))
          (h ++ calls_of (step k state reference action reward done self h))),
   calls_of (step k state reference action reward done self h)
   :: snd (steps ks state reference action reward done
             (self_of (step k state reference action reward done self h))
             (h ++ calls_of
                     (step k state reference action reward done self h)))).
Proof.
  cbn [steps].
  destruct (step k state reference action reward done self h)
    as [[r self1] es]. unfold self_of, calls_of. cbn [fst snd].
  destruct (steps ks state reference action reward done self1 (h ++ es)).
  reflexivity.
Qed.

(** The redraws and surface creations of an episode with collaborators
    that return. *)
Lemma steps_benign ks :
  benign ->
  forall self h,
    _plots self <> [] \/ _figure self <> None ->
    map redraws (snd (steps ks state reference action reward done self h))
    = map (fun k =>
             if Z.eqb (_update_cycle self) 0 then 0
             else if Z.eqb ((k + 1) mod _update_cycle self) 0 then 1 else 0)
          ks
    /\ map surfaces
         (snd (steps ks state reference action reward done self h))
       = match ks with
         | [] => []
         | _ :: ks' =>
             (if py_not_figure (_figure self) then 1 else 0)
             :: repeat 0 (List.length ks')
         end
    /\ same_fields
         (fst (steps ks state reference action reward done self h)) self
    /\ (forall f, _figure self = Some f ->
          _figure (fst (steps ks state reference action reward done self h))
          = Some f).
Proof.
  intros Hb. induction ks as [|k ks IH]; intros self h Hready.
  - cbn. repeat split; auto.
  - rewrite steps_cons. cbn [fst snd map].
    destruct (step_benign_counts k state reference action reward done
                self h Hb Hready) as (Hr & Hs & Hsame & f & Hf & Hkeep).
    set (self1 := self_of _) in *. set (es := calls_of _) in *.
    clearbody self1 es.
    destruct Hsame as (Hu & Hp & Hd).
    assert (Hready1 : _plots self1 <> [] \/ _figure self1 <> None).
    { right. congruence. }
    destruct (IH self1 (h ++ es) Hready1) as (IHr & IHs & IHsame & IHf).
    rewrite Hr, Hs, IHr, IHs, Hu. split; [reflexivity|]. split.
    + f_equal. rewrite Hf. destruct ks; cbn; reflexivity.
    + destruct IHsame as (Hu' & Hp' & Hd'). split.
      * repeat split; congruence.
      * intros f0 Hf0. apply IHf. rewrite Hf. f_equal. auto.
Qed.

End Episode.

(** ** The constructor *)

Lemma init_plots_run plots self h :
  init_plots plots self h
  = (fst (init_plots_pure plots (_plots self)),
     mkDashboard (_update_cycle self) (_figure self)
                 (snd (init_plots_pure plots (_plots self)))
                 (_dark_mode self),
     []).
Proof.
  revert self h. induction plots as [|plot l IH]; intros self h.
  - destruct self. reflexivity.
  - unfold init_plots. rewrite for_each_cons. fold (init_plots l).
    destruct plot as [s| | |c|c args]; cbn [init_plots_pure].
    + unfold spec_plot_for_tag, construct.
      destruct (String.eqb s "reward");
        [|destruct (startswith s "action_")];
        cbn; rewrite IH; reflexivity.
    + destruct self; reflexivity.
    + destruct self; reflexivity.
    + cbn [issubclass]. destruct (_ || _); cbn.
      * rewrite IH. reflexivity.
      * destruct self; reflexivity.
    + destruct self; reflexivity.
Qed.

Lemma init_run plots uc dm h :
  __init__ plots uc dm h
  = if raises h plt_ion then (Raise ExternalError, [plt_ion])
    else match init_plots_pure plots [] with
         | (Ok _, ps) => (Ok (mkDashboard uc None ps dm), [plt_ion])
         | (Raise e, _) => (Raise e, [plt_ion])
         end.
Proof.
  unfold __init__, bind, call. destruct (raises h plt_ion); [reflexivity|].
  rewrite init_plots_run. cbn [_plots _update_cycle _figure _dark_mode].
  destruct (init_plots_pure plots []) as [[[]|e] ps]; reflexivity.
Qed.

Lemma init_plots_pure_tags tags acc :
  init_plots_pure (map PyStr tags) acc
  = (Ok tt, acc ++ map spec_plot_for_tag tags).
Proof.
  revert acc. induction tags as [|t tags IH]; intros acc; cbn.
  - rewrite app_nil_r. reflexivity.
  - rewrite IH, <- app_assoc. reflexivity.
Qed.

Lemma init_plots_pure_app tags l acc :
  init_plots_pure (map PyStr tags ++ l) acc
  = init_plots_pure l (acc ++ map spec_plot_for_tag tags).
Proof.
  revert acc. induction tags as [|t tags IH]; intros acc; cbn.
  - rewrite app_nil_r. reflexivity.
  - rewrite IH, <- app_assoc. reflexivity.
Qed.

Lemma init_tags tags uc dm h :
  raises h plt_ion = false ->
  __init__ (map PyStr tags) uc dm h
  = (Ok (mkDashboard uc None (map spec_plot_for_tag tags) dm), [plt_ion]).
Proof.
  intros Hq. rewrite init_run, Hq, init_plots_pure_tags. reflexivity.
Qed.

Lemma init_raise plots uc dm h e :
  fst (__init__ plots uc dm h) = Raise e ->
  (e = ExternalError /\ raises h plt_ion = true)
  \/ (raises h plt_ion = false
      /\ fst (init_plots_pure plots []) = Raise e).
Proof.
  rewrite init_run. destruct (raises h plt_ion).
  - cbn. intros H. inversion H. auto.
  - destruct (init_plots_pure plots []) as [[[]|e'] ps]; cbn;
      [discriminate|]. intros H. inversion H. auto.
Qed.

Lemma init_figure plots uc dm h self es :
  __init__ plots uc dm h = (Ok self, es) ->
  _figure self = None /\ _update_cycle self = uc /\ _dark_mode self = dm.
Proof.
  rewrite init_run. destruct (raises h plt_ion); [discriminate|].
  destruct (init_plots_pure plots []) as [[[]|e'] ps]; [|discriminate].
  intros H. inversion H. auto.
Qed.

Lemma tag_cases tag :
  (tag = "reward" ->
   spec_plot_for_tag tag = PyInstance mdp.RewardPlot [])
  /\ (startswith tag "action_" = true ->
      spec_plot_for_tag tag = PyInstance mdp.ActionPlot [PyStr tag])
  /\ (tag <> "reward" -> startswith tag "action_" = false ->
      spec_plot_for_tag tag = PyInstance mdp.StatePlot [PyStr tag]).
Proof.
  unfold spec_plot_for_tag. destruct (String.eqb_spec tag "reward") as [->|Hne].
  - split; [reflexivity|]. split; [discriminate|]. congruence.
  - split; [congruence|]. split; intros.
    + rewrite H. reflexivity.
    + rewrite H0. reflexivity.
Qed.

(** ** The claims *)

Lemma update_calls_same self1 self f name :
  _plots self1 = _plots self ->
  update_calls self1 f name = update_calls self f name.
Proof. unfold update_calls. intros ->. reflexivity. Qed.

Lemma cadence_first_cycle (n : nat) :
  map (fun k =>
         if Z.eqb (Z.of_nat (S n)) 0 then 0
         else if Z.eqb ((k + 1) mod Z.of_nat (S n)) 0 then 1 else 0)
      (map Z.of_nat (seq 0 (S n)))
  = repeat 0 n ++ [1].
Proof.
  assert (Hnz : Z.eqb (Z.of_nat (S n)) 0 = false) by (apply Z.eqb_neq; lia).
  assert (Hlow : forall l, (forall i, In i l -> i < n) ->
            map (fun i =>
                   if Z.eqb (Z.of_nat (S n)) 0 then 0
                   else if Z.eqb ((Z.of_nat i + 1) mod Z.of_nat (S n)) 0
                        then 1 else 0) l
            = repeat 0 (List.length l)).
  { induction l as [|i l IH]; intros Hl; [reflexivity|].
    cbn [map List.length repeat]. rewrite IH by (intros; apply Hl; now right).
    rewrite Hnz. assert (Hi : i < n) by (apply Hl; now left).
    rewrite Z.mod_small by lia.
    destruct (Z.eqb_spec (Z.of_nat i + 1) 0); [lia|reflexivity]. }
  rewrite seq_S, !map_app, map_map. cbn [map Nat.add]. f_equal.
  - rewrite Hlow, length_seq; [reflexivity|].
    intros i Hi. apply in_seq in Hi. lia.
  - rewrite Hnz.
    replace (Z.of_nat n + 1)%Z with (Z.of_nat (S n)) by lia.
    rewrite Z.mod_same by lia. reflexivity.
Qed.

(** C1.  A call of [step] enters [_update] (the batched redraw: every
    plot is asked to update, then the canvas is flushed) at most once,
    and only when [(k + 1) mod update_cycle = 0] for a non-zero cycle;
    a call that returns has entered it exactly when
    [(k + 1) mod update_cycle = 0].  With collaborators that return, at
    least one plot (or a surface already there) and a non-zero cycle the
    call does return, and its redraw, if any, is the complete batch at
    the end of its calls.  Hence, for steps [0, 1, ...] on a dashboard
    with cycle [n + 1], the first [n] calls make no redraw and call
    number [n + 1] makes exactly one. *)
Theorem step_redraw_cadence :
  (forall k state reference action reward done self h,
      redraws (calls_of (step k state reference action reward done self h))
      <= 1
      /\ (redraws (calls_of
                     (step k state reference action reward done self h)) = 1
          -> _update_cycle self <> 0%Z
             /\ ((k + 1) mod _update_cycle self = 0)%Z)
      /\ (outcome_of (step k state reference action reward done self h)
          = Ok tt ->
          (redraws (calls_of
                      (step k state reference action reward done self h))
           = 1
           <-> ((k + 1) mod _update_cycle self = 0)%Z)))
  /\ (forall k state reference action reward done self h,
         benign ->
         _plots self <> [] \/ _figure self <> None ->
         _update_cycle self <> 0%Z ->
         exists self1 pre f name,
           step k state reference action reward done self h
           = (Ok tt, self1,
              pre ++ (if Z.eqb ((k + 1) mod _update_cycle self) 0
                      then update_calls self f name else []))
           /\ redraws pre = 0
           /\ _figure self1 = Some f)
  /\ (forall n state reference action reward done self h,
         benign ->
         _plots self <> [] \/ _figure self <> None ->
         _update_cycle self = Z.of_nat (S n) ->
         map redraws
           (snd (steps (map Z.of_nat (seq 0 (S n)))
                       state reference action reward done self h))
         = repeat 0 n ++ [1]).
Proof.
  split; [|split].
  - intros k state reference action reward done self h.
    pose proof (step_any k state reference action reward done self h) as H.
    unfold post in H. destruct H as (Hsame & Hc).
    destruct (step_counts _ _ _ _ _ _ _ _ _ _ Hc Hsame)
      as ([(H1 & Hnz & Hm)|(H0 & Hok)] & _ & _).
    + rewrite H1. split; [lia|]. split; [auto|]. intros _. tauto.
    + rewrite H0. split; [lia|]. split; [discriminate|].
      intros Hr. destruct (Hok Hr) as [Hnz Hm].
      split; [discriminate|]. intros Hm'. contradiction.
  - intros k state reference action reward done self h Hb Hready Hnz.
    destruct (step_benign k state reference action reward done self h
                Hb Hready)
      as (self1 & ei & f & (Hu & Hp & Hd) & Hsr & Hf & Hrun).
    destruct Hrun as [(Hz & _)|(_ & name & Hrun)]; [contradiction|].
    exists self1,
      (ei ++ map (fanout k state reference action reward done)
                 (_plots self)), f, name.
    rewrite Hrun, <- app_assoc, (update_calls_same _ _ _ _ Hp).
    split; [reflexivity|]. split; [|exact Hf].
    rewrite redraws_app, redraws_fanout.
    unfold surface_ready in Hsr. destruct (_figure self).
    + destruct Hsr as [-> _]. reflexivity.
    + destruct Hsr as (f1 & _ & -> & _). rewrite redraws_initialize.
      reflexivity.
  - intros n state reference action reward done self h Hb Hready Hu.
    destruct (steps_benign state reference action reward done
                (map Z.of_nat (seq 0 (S n))) Hb self h Hready)
      as (Hr & _).
    rewrite Hr, Hu. apply cadence_first_cycle.
Qed.

(** C5.  For the tags ["reward"; "action_0"; "speed"] the constructor
    builds exactly three plots in this order: a [RewardPlot], an
    [ActionPlot] and a [StatePlot].  In general, for a list of tag
    strings, the plot list has one plot per tag at the same position: a
    [RewardPlot] for "reward", an [ActionPlot] for a tag that starts with
    "action_", a [StatePlot] for any other tag. *)
Theorem init_resolves_tags :
  (forall uc dm h,
      raises h plt_ion = false ->
      __init__ [PyStr "reward"; PyStr "action_0"; PyStr "speed"] uc dm h
      = (Ok (mkDashboard uc None
               [PyInstance mdp.RewardPlot [];
                PyInstance mdp.ActionPlot [PyStr "action_0"];
                PyInstance mdp.StatePlot [PyStr "speed"]] dm),
         [plt_ion]))
  /\ (forall tags uc dm h,
         raises h plt_ion = false ->
         exists self,
           __init__ (map PyStr tags) uc dm h = (Ok self, [plt_ion])
           /\ List.length (_plots self) = List.length tags
           /\ forall i tag,
                nth_error tags i = Some tag ->
                (tag = "reward" ->
                 nth_error (_plots self) i
                 = Some (PyInstance mdp.RewardPlot []))
                /\ (startswith tag "action_" = true ->
                    nth_error (_plots self) i
                    = Some (PyInstance mdp.ActionPlot [PyStr tag]))
                /\ (tag <> "reward" -> startswith tag "action_" = false ->
                    nth_error (_plots self) i
                    = Some (PyInstance mdp.StatePlot [PyStr tag]))).
Proof.
  split.
  - intros uc dm h Hq.
    exact (init_tags ["reward"; "action_0"; "speed"] uc dm h Hq).
  - intros tags uc dm h Hq. eexists. split; [apply init_tags; exact Hq|].
    cbn [_plots]. split; [apply length_map|].
    intros i tag Hi. rewrite nth_error_map, Hi. cbn [option_map].
    destruct (tag_cases tag) as (H1 & H2 & H3).
    repeat split; intros; f_equal; auto.
Qed.

(** C10.  A list of tag strings is accepted whatever the strings are:
    the constructor itself never raises on it (only [plt.ion()] can), and
    a tag that is not "reward" and does not start with "action_", a
    misspelled state name included, becomes a [StatePlot] of that
    name. *)
Theorem init_accepts_every_tag :
  forall tags uc dm h,
    (forall e, fst (__init__ (map PyStr tags) uc dm h) = Raise e ->
               e = ExternalError /\ raises h plt_ion = true)
    /\ (raises h plt_ion = false ->
        exists self,
          __init__ (map PyStr tags) uc dm h = (Ok self, [plt_ion])
          /\ forall i tag,
               nth_error tags i = Some tag ->
               tag <> "reward" -> startswith tag "action_" = false ->
               nth_error (_plots self) i
               = Some (PyInstance mdp.StatePlot [PyStr tag])).
Proof.
  intros tags uc dm h. split.
  - intros e He. apply init_raise in He as [H|[_ H]]; [exact H|].
    rewrite init_plots_pure_tags in H. discriminate.
  - intros Hq. eexists. split; [apply init_tags; exact Hq|].
    cbn [_plots]. intros i tag Hi Hne Hpre.
    rewrite nth_error_map, Hi. cbn [option_map]. f_equal.
    apply tag_cases; assumption.
Qed.

(** C2 (the code departs from it).  An already constructed plot object
    in [plots], alone or after any tags, makes the constructor raise: the
    check is [issubclass], which refuses anything that is not a class
    with a [TypeError].  What the check lets through is a class derived
    from [MotorDashboardPlot], and the class object itself is then
    appended. *)
Theorem init_rejects_plot_instance :
  forall tags c args rest uc dm h,
    returns (fst (__init__ (map PyStr tags ++ PyInstance c args :: rest)
                           uc dm h)) = false
    /\ (raises h plt_ion = false ->
        __init__ (map PyStr tags ++ PyInstance c args :: rest) uc dm h
        = (Raise TypeError, [plt_ion]))
    /\ (raises h plt_ion = false ->
        __init__ [PyClassObj mdp.RewardPlot] uc dm h
        = (Ok (mkDashboard uc None [PyClassObj mdp.RewardPlot] dm),
           [plt_ion])).
Proof.
  intros tags c args rest uc dm h.
  rewrite !init_run, init_plots_pure_app. cbn.
  destruct (raises h plt_ion); repeat split; congruence.
Qed.

(** C4.  The constructor accepts an empty plot list: it raises nothing
    of its own and gives a dashboard without plots and without a
    surface.  The failure comes with the first [step]: it never returns
    and never asks for a figure, and when [plt.close()] returns it is
    the assertion "no plot variable selected" raised in [_initialize],
    with the object left as it was.  [reset] and [set_modules] on that
    dashboard return and call nothing. *)
Theorem empty_plots_fail_at_first_step :
  forall uc dm h,
    (forall e, fst (__init__ [] uc dm h) = Raise e ->
               e = ExternalError /\ raises h plt_ion = true)
    /\ (raises h plt_ion = false ->
        __init__ [] uc dm h = (Ok (mkDashboard uc None [] dm), [plt_ion]))
    /\ reset (mkDashboard uc None [] dm) h
       = (Ok tt, mkDashboard uc None [] dm, [])
    /\ (forall ps rg rf,
           set_modules ps rg rf (mkDashboard uc None [] dm) h
           = (Ok tt, mkDashboard uc None [] dm, []))
    /\ (forall k state reference action reward done,
           returns (outcome_of
                      (step k state reference action reward done
                            (mkDashboard uc None [] dm) h)) = false
           /\ surfaces (calls_of
                          (step k state reference action reward done
                                (mkDashboard uc None [] dm) h)) = 0
           /\ (raises (h ++ [enter_initialize]) plt_close = false ->
               step k state reference action reward done
                    (mkDashboard uc None [] dm) h
               = (Raise (AssertionError "no plot variable selected"),
                  mkDashboard uc None [] dm,
                  [enter_initialize; plt_close]))).
Proof.
  intros uc dm h. split; [|split; [|split; [|split]]].
  - intros e He. apply init_raise in He as [H|[_ H]]; [exact H|].
    discriminate.
  - intros Hq. exact (init_tags [] uc dm h Hq).
  - reflexivity.
  - reflexivity.
  - intros k state reference action reward done.
    pose proof (step_any k state reference action reward done
                  (mkDashboard uc None [] dm) h) as H.
    unfold post in H. destruct H as (_ & Hc).
    split; [|split].
    + destruct Hc as [(_ & _ & _ & [[-> _]|[-> _]])
                     |(ei & er & _ & (f & _ & _ & Hne) & _)];
        [reflexivity|reflexivity|].
      cbn in Hne. congruence.
    + destruct Hc as [(_ & Hall & _)
                     |(ei & er & _ & (f & _ & _ & Hne) & _)].
      * eapply surfaces_none; [exact Hall|].
        intros n. cbn. apply andb_false_r.
      * cbn in Hne. congruence.
    + intros Hq. unfold step, _initialize, bind, get_self, note, call,
        py_assert, lift. cbn. rewrite app_nil_r, Hq. reflexivity.
Qed.

Lemma reset_any self h :
  self_of (reset self h) = self
  /\ ((reset self h = (Ok tt, self, map plot_reset (_plots self)))
      \/ (exists pre plot rest,
             _plots self = pre ++ plot :: rest
             /\ raises (h ++ map plot_reset pre) (plot_reset plot) = true
             /\ reset self h
                = (Raise ExternalError, self,
                   map plot_reset (pre ++ [plot])))).
Proof.
  unfold reset, bind, get_self.
  destruct (for_each_call_run plot_reset (_plots self) self (h ++ []))
    as [E|(pre & x & rest & Hl & Hr & E)]; rewrite E; cbn.
  - auto.
  - split; [reflexivity|]. right. exists pre, x, rest.
    rewrite app_nil_r in Hr. auto.
Qed.

(** C6.  [reset] calls [reset()] on the plots in the order of the plot
    list and on nothing else, stopping only at a plot whose [reset()]
    raises; it returns no value and never changes a field of the
    dashboard, so that two calls leave the dashboard as one call does.
    With plots that return, the second call repeats the calls of the
    first.  On a dashboard fresh from the constructor [reset] does not
    create the surface, and it raises only if a plot does. *)
Theorem reset_forwards :
  (forall self h,
      self_of (reset self h) = self
      /\ self_of ((reset ;; reset) self h) = self_of (reset self h)
      /\ surfaces (calls_of (reset self h)) = 0
      /\ (exists pre rest,
             _plots self = pre ++ rest
             /\ calls_of (reset self h) = map plot_reset pre)
      /\ (forall e, outcome_of (reset self h) = Raise e ->
                    e = ExternalError /\ some_call_raised))
  /\ (benign ->
      forall self h,
        reset self h = (Ok tt, self, map plot_reset (_plots self))
        /\ (reset ;; reset) self h
           = (Ok tt, self,
              map plot_reset (_plots self) ++ map plot_reset (_plots self)))
  /\ (forall plots uc dm h0 self es h,
         __init__ plots uc dm h0 = (Ok self, es) ->
         _figure (self_of (reset self h)) = None).
Proof.
  clear backend.
  assert (Hquiet : forall l,
             surfaces (map (fun plot : PyValue => plot_reset plot) l) = 0).
  { intros l. eapply (surfaces_none is_plot_reset); [|reflexivity].
    unfold all_calls. apply forallb_map_true. reflexivity. }
  split; [|split].
  - intros self h. destruct (reset_any self h) as (Hs & Hrun).
    split; [exact Hs|]. split.
    { rewrite Hs.
      destruct Hrun as [E|(pre & plot & rest & _ & _ & E)].
      - rewrite (bind_ok _ _ _ _ _ _ _ E). unfold self_of at 1.
        cbn [fst snd]. apply reset_any.
      - rewrite (bind_raise _ _ _ _ _ _ _ E). reflexivity. }
    destruct Hrun as [E|(pre & plot & rest & Hl & Hr & E)]; rewrite E;
      unfold calls_of, outcome_of; cbn [fst snd].
    + split; [apply Hquiet|]. split; [|discriminate].
      exists (_plots self), []. rewrite app_nil_r. auto.
    + split; [apply Hquiet|]. split.
      * exists (pre ++ [plot]), rest. rewrite <- app_assoc. auto.
      * intros e He. inversion He. eauto using raised.
  - intros Hb self h.
    assert (E : forall h', reset self h'
                           = (Ok tt, self, map plot_reset (_plots self))).
    { intros h'. destruct (reset_any self h')
        as (_ & [E|(pre & plot & rest & _ & Hr & _)]); [exact E|].
      rewrite Hb in Hr. discriminate. }
    split; [apply E|].
    rewrite (bind_ok _ _ _ _ _ _ _ (E h)), E. reflexivity.
  - intros plots uc dm h0 self es h Hinit.
    destruct (reset_any self h) as (-> & _).
    apply init_figure in Hinit. tauto.
Qed.

(** C7.  With exactly one plot, [_initialize] takes its own branch: the
    plot is initialized with the very object [plt.subplots] returned,
    which for one row is a single axis, and the method returns, unless
    a collaborator raises.  No exception of the dashboard's own making
    is possible; the branch of several plots would have raised a
    [TypeError] on that object, which is not iterable. *)
Theorem single_plot_initialize :
  forall uc fig p dm h,
    (forall e, outcome_of (_initialize (mkDashboard uc fig [p] dm) h)
               = Raise e ->
               e = ExternalError /\ some_call_raised)
    /\ (benign ->
        exists f,
          _initialize (mkDashboard uc fig [p] dm) h
          = (Ok tt, mkDashboard uc (Some f) [p] dm,
             [enter_initialize; plt_close]
             ++ (if dm then [plt_style_use "dark_background"] else [])
             ++ [plt_subplots 1; figure_subplots_adjust f;
                 plt_xlabel "t/s"; plot_initialize p (axes_of f 1);
                 plt_pause]))
    /\ (forall f, axes_of f 1 = OneAxes (Ax f 0)
                  /\ py_zip [p] (axes_of f 1) = Raise TypeError).
Proof.
  intros uc fig p dm h.
  pose proof (_initialize_any (mkDashboard uc fig [p] dm) h) as H.
  unfold post in H. cbn [_plots _update_cycle _dark_mode] in H.
  destruct H as (Hu & Hp & Hd & _ & _ & Hr).
  split; [|split].
  - intros e He. rewrite He in Hr.
    destruct Hr as [Hr|(_ & Hnil & _)]; [exact Hr|discriminate].
  - intros Hb.
    rewrite (run_eta (_initialize (mkDashboard uc fig [p] dm) h)).
    destruct (outcome_of _) as [[]|e].
    + destruct Hr as (f & Hf & -> & _). exists f.
      destruct (self_of _) as [uc1 fig1 plots1 dm1].
      cbn in Hu, Hp, Hd, Hf. subst. reflexivity.
    + exfalso. destruct Hr as [[_ Hs]|(_ & Hnil & _)];
        [exact (benign_quiet Hb Hs)|discriminate].
  - intros f. split; reflexivity.
Qed.

Lemma app_split_not_in {A : Type} (l1 l2 pre : list A) x rest :
  l1 ++ l2 = pre ++ x :: rest -> ~ In x l1 ->
  exists mid, pre = l1 ++ mid.
Proof.
  revert pre. induction l1 as [|a l1 IH]; intros pre E Hn.
  - exists pre. reflexivity.
  - destruct pre as [|b pre]; cbn in E; inversion E; subst.
    + exfalso. apply Hn. now left.
    + destruct (IH pre H1) as [mid ->].
      * intros Hin. apply Hn. now right.
      * exists mid. reflexivity.
Qed.

(** A complete surface creation asks for the figure and initializes
    every plot. *)
Lemma initialize_calls_cover self f :
  In (plt_subplots (List.length (_plots self))) (initialize_calls self f)
  /\ forall plot, In plot (_plots self) ->
       exists axis, In (plot_initialize plot axis) (initialize_calls self f).
Proof.
  unfold initialize_calls. split.
  - apply in_or_app. right. apply in_or_app. right. now left.
  - intros plot Hin.
    assert (Hrow : exists i,
               In (plot, i)
                  (combine (_plots self)
                           (seq 0 (List.length (_plots self))))).
    { generalize 0. induction (_plots self) as [|q l IH]; intros start;
        [contradiction|].
      destruct Hin as [->|Hin].
      - exists start. now left.
      - destruct (IH Hin (S start)) as [i Hi]. exists i. now right. }
    destruct Hrow as [i Hi]. exists (OneAxes (Ax f i)).
    apply in_or_app. right. apply in_or_app. right.
    apply in_or_app. right. apply in_or_app. left.
    apply in_map_iff. exists (plot, i). auto.
Qed.

(** C8.  [_update] run on an object without a figure would fail on
    [self._figure.canvas]; inside [step] this cannot happen.  Whatever
    the collaborators do, [step] raises nothing but a collaborator's
    exception, the assertion on the plot list or the division by zero,
    and when it has entered [_update] the figure is set.  On a call that
    starts without a figure, every [plot.step] comes after a complete
    [_initialize], which has asked for the figure and initialized every
    plot. *)
Theorem update_has_surface :
  (forall self h,
      _figure self = None ->
      returns (outcome_of (_update self h)) = false
      /\ (benign -> outcome_of (_update self h) = Raise AttributeError))
  /\ (forall k state reference action reward done self h,
         (forall e,
             outcome_of (step k state reference action reward done self h)
             = Raise e ->
             e = ExternalError
             \/ e = AssertionError "no plot variable selected"
             \/ e = ZeroDivisionError)
         /\ (redraws (calls_of
                        (step k state reference action reward done self h))
             = 1 ->
             exists f,
               _figure (self_of
                          (step k state reference action reward done self h))
               = Some f)
         /\ (_figure self = None ->
             forall pre plot rest,
               calls_of (step k state reference action reward done self h)
               = pre ++ plot_step plot k state reference action reward done
                        :: rest ->
               exists f mid,
                 pre = initialize_calls self f ++ mid
                 /\ In (plt_subplots (List.length (_plots self))) pre
                 /\ forall q, In q (_plots self) ->
                      exists axis, In (plot_initialize q axis) pre)).
Proof.
  split.
  - intros self h Hnone.
    pose proof (_update_any self h) as H. unfold post in H.
    destruct H as (_ & _ & Hr).
    destruct (outcome_of (_update self h)) as [[]|e].
    + destruct Hr as (f & Hf & _). congruence.
    + split; [reflexivity|]. intros Hb.
      destruct Hr as [[_ Hs]|[-> _]]; [|reflexivity].
      exfalso. exact (benign_quiet Hb Hs).
  - intros k state reference action reward done self h.
    pose proof (step_any k state reference action reward done self h) as H.
    unfold post in H. destruct H as (Hsame & Hc).
    set (r := outcome_of _) in *. set (self1 := self_of _) in *.
    set (es := calls_of _) in *. clearbody r self1 es.
    split; [|split].
    + intros e He.
      destruct Hc as [(_ & _ & _ & [[Hr _]|[Hr _]])
                     |(ei & er & _ & _ & Hrest)].
      * left. congruence.
      * right. left. congruence.
      * destruct Hrest as [(pre & x & rest & _ & _ & Hr & _)
         |[(_ & _ & Hr)
         |[(_ & _ & _ & Hr)
         |(_ & _ & eu & _ & _ & [[Hr _]|[Hr _]])]]];
          rewrite Hr in He; inversion He; auto.
    + intros Hone.
      destruct Hc as [(_ & Hall & _)|(ei & er & _ & Hsr & _)].
      * rewrite (redraws_none _ _ Hall) in Hone by reflexivity.
        discriminate.
      * exact (surface_ready_figure _ _ _ Hsr).
    + intros Hnone pre plot rest Hes.
      assert (Hstep : forall Q l,
                 all_calls Q l ->
                 Q (plot_step plot k state reference action reward done)
                 = false ->
                 ~ In (plot_step plot k state reference action reward done)
                      l).
      { intros Q l Hall HQ Hin. apply (all_calls_In _ _ _ Hall) in Hin.
        congruence. }
      destruct Hc as [(_ & Hall & _)|(ei & er & Hsplit & Hsr & _)].
      * exfalso. apply (Hstep _ _ Hall); [reflexivity|].
        rewrite Hes. apply in_or_app. right. now left.
      * unfold surface_ready in Hsr. rewrite Hnone in Hsr.
        destruct Hsr as (f & _ & -> & Hne).
        rewrite Hsplit in Hes.
        destruct (app_split_not_in _ _ _ _ _ Hes) as [mid ->].
        { apply (Hstep _ _ (initialize_calls_ok self f)). reflexivity. }
        destruct (initialize_calls_cover self f) as [Hsub Hplots].
        exists f, mid. split; [reflexivity|]. split.
        -- apply in_or_app. now left.
        -- intros q Hq. destruct (Hplots q Hq) as [axis Hax].
           exists axis. apply in_or_app. now left.
Qed.

(** C9.  With a cycle of zero no call of [step] returns, whatever the
    collaborators do, and none redraws; with collaborators that return
    and a plot or a surface at hand the call gets the surface ready,
    hands the step to every plot and then raises [ZeroDivisionError] at
    the cadence test.  The constructor does not look at the cycle: it
    succeeds or fails alike for any two values and stores the one it was
    given. *)
Theorem zero_cycle_step_fails :
  (forall k state reference action reward done self h,
      _update_cycle self = 0%Z ->
      returns (outcome_of
                 (step k state reference action reward done self h)) = false
      /\ redraws (calls_of
                    (step k state reference action reward done self h)) = 0)
  /\ (forall k state reference action reward done self h,
         benign ->
         _plots self <> [] \/ _figure self <> None ->
         _update_cycle self = 0%Z ->
         exists self1 ei,
           step k state reference action reward done self h
           = (Raise ZeroDivisionError, self1,
              ei ++ map (fanout k state reference action reward done)
                        (_plots self))
           /\ surface_ready self self1 ei)
  /\ (forall plots uc uc' dm h,
         returns (fst (__init__ plots uc dm h))
         = returns (fst (__init__ plots uc' dm h))
         /\ forall self es,
              __init__ plots uc dm h = (Ok self, es) ->
              _update_cycle self = uc).
Proof.
  split; [|split].
  - intros k state reference action reward done self h Hz.
    pose proof (step_any k state reference action reward done self h) as H.
    unfold post in H. destruct H as (Hsame & Hc).
    destruct (step_counts _ _ _ _ _ _ _ _ _ _ Hc Hsame)
      as ([(_ & Hnz & _)|(H0 & Hok)] & _ & _); [contradiction|].
    split; [|exact H0].
    destruct (outcome_of _) as [[]|e]; [|reflexivity].
    destruct (Hok eq_refl) as [Hnz _]. contradiction.
  - intros k state reference action reward done self h Hb Hready Hz.
    destruct (step_benign k state reference action reward done self h
                Hb Hready)
      as (self1 & ei & f & _ & Hsr & _ & [(_ & Hrun)|(Hnz & _)]);
      [|contradiction].
    exists self1, ei. auto.
  - intros plots uc uc' dm h. split.
    + rewrite !init_run. destruct (raises h plt_ion); [reflexivity|].
      destruct (init_plots_pure plots []) as [[[]|e] ps]; reflexivity.
    + intros self es Hinit. apply init_figure in Hinit. tauto.
Qed.

(** C3.  The constructor leaves the figure unset.  A call of [step] on
    an object without a figure starts by entering [_initialize]; a call
    on an object with a figure does not enter it, asks for no figure and
    keeps the one it has.  Whenever [step] asks matplotlib for a figure,
    the number of rows is the number of plots and is at least one.  So,
    with collaborators that return and at least one plot, in any run of
    calls of [step] from an object without a figure the first call
    creates the figure, no later call creates one, and the figure is set
    at the end. *)
Theorem surface_created_once :
  (forall plots uc dm h self es,
      __init__ plots uc dm h = (Ok self, es) -> _figure self = None)
  /\ (forall k state reference action reward done self h,
         (_figure self = None ->
          exists rest,
            calls_of (step k state reference action reward done self h)
            = enter_initialize :: rest)
         /\ (forall f, _figure self = Some f ->
               _figure (self_of
                          (step k state reference action reward done self h))
               = Some f
               /\ surfaces
                    (calls_of
                       (step k state reference action reward done self h))
                  = 0
               /\ ~ In enter_initialize
                       (calls_of
                          (step k state reference action reward done
                                self h)))
         /\ (forall n,
               In (plt_subplots n)
                  (calls_of
                     (step k state reference action reward done self h)) ->
               _figure self = None
               /\ n = List.length (_plots self) /\ 1 <= n))
  /\ (benign ->
      forall k ks state reference action reward done self h,
        _figure self = None -> _plots self <> [] ->
        map surfaces
          (snd (steps (k :: ks) state reference action reward done self h))
        = 1 :: repeat 0 (List.length ks)
        /\ exists f,
             _figure (fst (steps (k :: ks) state reference action reward
                                 done self h)) = Some f).
Proof.
  split; [|split].
  - intros plots uc dm h self es Hinit. apply init_figure in Hinit. tauto.
  - intros k state reference action reward done self h.
    pose proof (step_any k state reference action reward done self h) as H.
    unfold post in H. destruct H as (Hsame & Hc).
    destruct (step_counts _ _ _ _ _ _ _ _ _ _ Hc Hsame)
      as (_ & Hkeep & Hguard).
    split; [|split].
    + intros Hnone.
      destruct Hc as [(_ & _ & Hhd & _)|(ei & er & -> & Hsr & _)];
        [exact Hhd|].
      unfold surface_ready in Hsr. rewrite Hnone in Hsr.
      destruct Hsr as (f & _ & -> & _). unfold initialize_calls.
      cbn [app]. eauto.
    + intros f Hf. destruct (Hkeep f Hf) as [Hall Hf1].
      split; [exact Hf1|]. split.
      * eapply surfaces_none; [exact Hall|reflexivity].
      * intros Hin. apply (all_calls_In _ _ _ Hall) in Hin. discriminate.
    + exact Hguard.
  - intros Hb k ks state reference action reward done self h Hnone Hne.
    destruct (steps_benign state reference action reward done (k :: ks)
                Hb self h (or_introl Hne)) as (_ & Hs & _ & _).
    rewrite Hnone in Hs. split; [exact Hs|].
    rewrite steps_cons. cbn [fst].
    destruct (step_benign_counts k state reference action reward done
                self h Hb (or_introl Hne))
      as (_ & _ & _ & f & Hf & _).
    exists f.
    apply (steps_benign state reference action reward done ks Hb);
      [right; congruence|exact Hf].
Qed.

(** ** Beyond the claims *)

(** *** [set_modules] *)

Lemma set_modules_any ps rg rf self h :
  self_of (set_modules ps rg rf self h) = self
  /\ ((set_modules ps rg rf self h
       = (Ok tt, self,
          map (fun plot => plot_set_modules plot ps rg rf) (_plots self)))
      \/ (exists pre plot rest,
             _plots self = pre ++ plot :: rest
             /\ raises (h ++ map (fun q => plot_set_modules q ps rg rf) pre)
                       (plot_set_modules plot ps rg rf) = true
             /\ set_modules ps rg rf self h
                = (Raise ExternalError, self,
                   map (fun q => plot_set_modules q ps rg rf)
                       (pre ++ [plot])))).
Proof.
  unfold set_modules, bind, get_self.
  destruct (for_each_call_run (fun q => plot_set_modules q ps rg rf)
              (_plots self) self (h ++ []))
    as [E|(pre & x & rest & Hl & Hr & E)]; rewrite E; cbn.
  - auto.
  - split; [reflexivity|]. right. exists pre, x, rest.
    rewrite app_nil_r in Hr. auto.
Qed.

(** X1.  [set_modules] hands the same three modules to every plot, in
    the order of the plot list, and calls nothing else; it stops at the
    first plot that raises and raises nothing of its own.  It never
    changes the dashboard, so it neither needs nor creates the
    surface. *)
Theorem set_modules_forwards :
  forall ps rg rf self h,
    self_of (set_modules ps rg rf self h) = self
    /\ (exists pre rest,
           _plots self = pre ++ rest
           /\ calls_of (set_modules ps rg rf self h)
              = map (fun plot => plot_set_modules plot ps rg rf) pre
           /\ (outcome_of (set_modules ps rg rf self h) = Ok tt ->
               rest = []))
    /\ (forall e, outcome_of (set_modules ps rg rf self h) = Raise e ->
                  e = ExternalError /\ some_call_raised)
    /\ (benign ->
        set_modules ps rg rf self h
        = (Ok tt, self,
           map (fun plot => plot_set_modules plot ps rg rf)
               (_plots self))).
Proof.
  intros ps rg rf self h.
  destruct (set_modules_any ps rg rf self h) as (Hs & Hrun).
  split; [exact Hs|].
  destruct Hrun as [E|(pre & plot & rest & Hl & Hr & E)]; rewrite E;
    unfold calls_of, outcome_of; cbn [fst snd].
  - split; [|split; [discriminate|reflexivity]].
    exists (_plots self), []. rewrite app_nil_r. auto.
  - split; [|split].
    + exists (pre ++ [plot]), rest. rewrite <- app_assoc.
      split; [exact Hl|]. split; [reflexivity|discriminate].
    + intros e He. inversion He. eauto using raised.
    + intros Hb. rewrite Hb in Hr. discriminate.
Qed.

(** *** The constructor on any list *)

Lemma init_plots_pure_ok plots acc :
  forallb acceptable plots = true ->
  init_plots_pure plots acc = (Ok tt, acc ++ map appended_plot plots).
Proof.
  revert acc. induction plots as [|v l IH]; intros acc Hall.
  - cbn. rewrite app_nil_r. reflexivity.
  - cbn [forallb] in Hall. apply andb_true_iff in Hall as [Hv Hl].
    destruct v as [s| | |c|c args]; try discriminate.
    + cbn. rewrite (IH _ Hl), <- app_assoc. reflexivity.
    + cbn [init_plots_pure]. unfold acceptable in Hv.
      destruct (issubclass (PyClassObj c) mdp.MotorDashboardPlot)
        as [[]|e]; try discriminate.
      rewrite (IH _ Hl), <- app_assoc. reflexivity.
Qed.

Lemma init_plots_pure_reject v rest acc :
  acceptable v = false ->
  fst (init_plots_pure (v :: rest) acc) = Raise (rejection v).
Proof.
  destruct v as [s| | |c|c args]; try discriminate; try reflexivity.
  cbn [init_plots_pure acceptable].
  destruct (issubclass (PyClassObj c) mdp.MotorDashboardPlot)
    as [[]|e] eqn:E; try discriminate; reflexivity.
Qed.

Lemma init_plots_pure_split pre l acc :
  forallb acceptable pre = true ->
  init_plots_pure (pre ++ l) acc
  = init_plots_pure l (acc ++ map appended_plot pre).
Proof.
  revert acc. induction pre as [|v pre IH]; intros acc Hall.
  - cbn. rewrite app_nil_r. reflexivity.
  - cbn [forallb] in Hall. apply andb_true_iff in Hall as [Hv Hl].
    cbn [app map]. destruct v as [s| | |c|c args]; try discriminate.
    + cbn [init_plots_pure appended_plot].
      rewrite (IH _ Hl), <- app_assoc. reflexivity.
    + cbn [init_plots_pure appended_plot]. unfold acceptable in Hv.
      destruct (issubclass (PyClassObj c) mdp.MotorDashboardPlot)
        as [[]|e]; try discriminate.
      rewrite (IH _ Hl), <- app_assoc. reflexivity.
Qed.

Lemma forallb_false_split {A : Type} (P : A -> bool) l :
  forallb P l = false ->
  exists pre v rest,
    l = pre ++ v :: rest /\ forallb P pre = true /\ P v = false.
Proof.
  induction l as [|a l IH]; [discriminate|].
  cbn [forallb]. destruct (P a) eqn:Ea.
  - cbn. intros H. destruct (IH H) as (pre & v & rest & -> & Hp & Hv).
    exists (a :: pre), v, rest. cbn. rewrite Ea, Hp. auto.
  - intros _. exists [], a, l. auto.
Qed.

(** X2.  Once [plt.ion()] has returned, the constructor returns exactly
    when every element of [plots] is a string or a class derived from
    [MotorDashboardPlot].  It then holds one plot per element, at the
    same position: the plot of the tag for a string, the class itself
    for a class.  Otherwise the first element that is neither decides
    the exception, whatever comes after it: [AssertionError] for a
    class, [TypeError] for anything else. *)
Theorem init_accepts_exactly :
  forall plots uc dm h,
    raises h plt_ion = false ->
    returns (fst (__init__ plots uc dm h)) = forallb acceptable plots
    /\ (forallb acceptable plots = true ->
        __init__ plots uc dm h
        = (Ok (mkDashboard uc None (map appended_plot plots) dm),
           [plt_ion]))
    /\ (forall pre v rest,
           plots = pre ++ v :: rest ->
           forallb acceptable pre = true -> acceptable v = false ->
           __init__ plots uc dm h = (Raise (rejection v), [plt_ion])).
Proof.
  intros plots uc dm h Hq.
  assert (Hok : forallb acceptable plots = true ->
                __init__ plots uc dm h
                = (Ok (mkDashboard uc None (map appended_plot plots) dm),
                   [plt_ion])).
  { intros Hall. rewrite init_run, Hq, (init_plots_pure_ok _ _ Hall).
    reflexivity. }
  assert (Hbad : forall pre v rest,
             plots = pre ++ v :: rest ->
             forallb acceptable pre = true -> acceptable v = false ->
             __init__ plots uc dm h = (Raise (rejection v), [plt_ion])).
  { intros pre v rest -> Hpre Hv.
    rewrite init_run, Hq, (init_plots_pure_split _ _ _ Hpre).
    pose proof (init_plots_pure_reject v rest
                  ([] ++ map appended_plot pre) Hv) as Hr.
    destruct (init_plots_pure (v :: rest) _) as [[[]|e] ps];
      cbn [fst] in Hr; [discriminate|]. inversion Hr. reflexivity. }
  split; [|split; assumption].
  destruct (forallb acceptable plots) eqn:Hall.
  - rewrite (Hok eq_refl). reflexivity.
  - destruct (forallb_false_split _ _ Hall)
      as (pre & v & rest & Hl & Hpre & Hv).
    rewrite (Hbad pre v rest Hl Hpre Hv). reflexivity.
Qed.

(** *** [_initialize]: one row per plot, and the style *)

Lemma filter_all {A : Type} (P : A -> bool) l :
  forallb P l = true -> filter P l = l.
Proof.
  induction l as [|a l IH]; [reflexivity|].
  cbn. intros H. apply andb_true_iff in H as [Ha Hl].
  rewrite Ha, (IH Hl). reflexivity.
Qed.

Lemma filter_map_none {A B : Type} (P : B -> bool) (f : A -> B) l :
  (forall x, P (f x) = false) -> filter P (map f l) = [].
Proof.
  intros H. induction l as [|a l IH]; [reflexivity|].
  cbn. rewrite H. exact IH.
Qed.

Lemma nth_error_combine_seq {A : Type} (l : list A) start i x :
  nth_error l i = Some x ->
  nth_error (combine l (seq start (List.length l))) i = Some (x, start + i).
Proof.
  revert start i. induction l as [|a l IH]; intros start [|i] H;
    try discriminate.
  - cbn in *. inversion H. rewrite Nat.add_0_r. reflexivity.
  - cbn in *. rewrite (IH (S start) i H). f_equal. f_equal. lia.
Qed.

Lemma fig_eqb_refl f : fig_eqb f f = true.
Proof. destruct f. apply Nat.eqb_refl. Qed.

Lemma fig_eqb_eq f g : fig_eqb f g = true -> f = g.
Proof.
  destruct f, g. cbn. intros H. apply Nat.eqb_eq in H. congruence.
Qed.

Lemma initialize_calls_rows self f :
  filter is_plot_initialize (initialize_calls self f)
  = map (fun pa => plot_initialize (fst pa) (OneAxes (Ax f (snd pa))))
        (combine (_plots self) (seq 0 (List.length (_plots self)))).
Proof.
  unfold initialize_calls. rewrite !filter_app.
  rewrite (filter_all _ (map _ _))
    by (apply forallb_map_true; reflexivity).
  destruct (_dark_mode self); cbn; rewrite app_nil_r; reflexivity.
Qed.

(** X3.  [_initialize] on a dashboard with plots raises nothing of its
    own: no [TypeError] from the axes, no [IndexError], no
    [ValueError].  When the collaborators return it asks for one figure
    with as many rows as there are plots and initializes every plot
    exactly once, in the order of the plot list, the plot at position
    [i] with row [i] of that figure, for one plot as for several. *)
Theorem initialize_rows :
  forall self h,
    _plots self <> [] ->
    (forall e, outcome_of (_initialize self h) = Raise e ->
               e = ExternalError /\ some_call_raised)
    /\ (benign ->
        exists f,
          outcome_of (_initialize self h) = Ok tt
          /\ _figure (self_of (_initialize self h)) = Some f
          /\ surfaces (calls_of (_initialize self h)) = 1
          /\ In (plt_subplots (List.length (_plots self)))
                (calls_of (_initialize self h))
          /\ List.length
               (filter is_plot_initialize (calls_of (_initialize self h)))
             = List.length (_plots self)
          /\ forall i plot,
               nth_error (_plots self) i = Some plot ->
               nth_error
                 (filter is_plot_initialize
                         (calls_of (_initialize self h))) i
               = Some (plot_initialize plot (OneAxes (Ax f i)))).
Proof.
  intros self h Hne.
  pose proof (_initialize_any self h) as H. unfold post in H.
  destruct H as (_ & _ & _ & _ & _ & Hr).
  split.
  - intros e He. rewrite He in Hr.
    destruct Hr as [Hr|(_ & Hnil & _)]; [exact Hr|contradiction].
  - intros Hb. destruct (outcome_of (_initialize self h)) as [[]|e].
    + destruct Hr as (f & Hf & -> & _). exists f.
      split; [reflexivity|]. split; [exact Hf|].
      split; [apply surfaces_initialize|].
      split; [apply initialize_calls_cover|].
      rewrite initialize_calls_rows. split.
      * rewrite length_map, length_combine, length_seq. lia.
      * intros i plot Hi. rewrite nth_error_map.
        rewrite (nth_error_combine_seq _ 0 i plot Hi). reflexivity.
    + exfalso. destruct Hr as [[_ Hs]|(_ & Hnil & _)];
        [exact (benign_quiet Hb Hs)|contradiction].
Qed.

Lemma _initialize_style self h :
  post _initialize self h (fun r self1 es =>
    all_calls (style_call_ok (_dark_mode self)) es).
Proof.
  destruct self as [uc fig plots dm].
  destruct plots as [|p [|q l]]; unfold _initialize; wp_fields; norm;
    calls_ok.
Qed.

(** X4.  [_initialize] touches the matplotlib style in dark mode only,
    and only to select "dark_background", whatever the collaborators
    do.  When they return, the style call of a dark dashboard comes
    after [plt.close()] and right before [plt.subplots], so that the new
    figure is drawn with it, and it is the only one; a light dashboard
    goes from [plt.close()] straight to [plt.subplots]. *)
Theorem dark_mode_style :
  forall self h,
    (forall style,
        In (plt_style_use style) (calls_of (_initialize self h)) ->
        _dark_mode self = true /\ style = "dark_background")
    /\ (benign -> _plots self <> [] ->
        exists rest,
          calls_of (_initialize self h)
          = [enter_initialize; plt_close]
            ++ (if _dark_mode self
                then [plt_style_use "dark_background"] else [])
            ++ plt_subplots (List.length (_plots self)) :: rest
          /\ all_calls (style_call_ok false) rest).
Proof.
  intros self h. split.
  - intros style Hin.
    pose proof (_initialize_style self h) as H. unfold post in H.
    apply (all_calls_In _ _ _ H) in Hin. cbn in Hin.
    apply andb_true_iff in Hin as [Hd Hs].
    apply String.eqb_eq in Hs. auto.
  - intros Hb Hne.
    pose proof (_initialize_any self h) as H. unfold post in H.
    destruct H as (_ & _ & _ & _ & _ & Hr).
    destruct (outcome_of (_initialize self h)) as [[]|e].
    + destruct Hr as (f & _ & -> & _). unfold initialize_calls.
      eexists. split; [reflexivity|]. calls_ok.
    + exfalso. destruct Hr as [[_ Hs]|(_ & Hnil & _)];
        [exact (benign_quiet Hb Hs)|contradiction].
Qed.

(** *** [_update]: the canvas and the backend *)

Lemma _update_canvas self h :
  post _update self h (fun r self1 es =>
    all_calls
      (canvas_call_ok
         (String.eqb
            (backend (h ++ enter_update :: map plot_update (_plots self)))
            "NbAgg")
         (_figure self)) es).
Proof.
  unfold _update. wp;
    try (destruct (_figure self) as [f|] eqn:Ef; cbn [canvas_of]; wp);
    norm;
    try (rewrite ?app_nil_r, <- ?app_assoc in Heqb; cbn [app] in Heqb;
         rewrite Heqb);
    unfold all_calls;
    rewrite ?forallb_app;
    rewrite ?forallb_map_true by (intros; reflexivity);
    cbn; rewrite ?forallb_app;
    rewrite ?forallb_map_true by (intros; reflexivity);
    cbn; rewrite ?fig_eqb_refl; reflexivity.
Qed.

(** X5.  Whatever the collaborators do, [_update] draws and flushes on
    the canvas of the dashboard's own figure only, and calls
    [canvas.draw()] only when [matplotlib.get_backend()] has answered
    "NbAgg".  When it returns, it has asked every plot to update, in the
    order of the plot list, then asked for the backend, drawn once if
    and only if the answer was "NbAgg", and flushed the events as its
    last call. *)
Theorem update_draws_on_nbagg :
  forall self h,
    (forall f, In (canvas_draw f) (calls_of (_update self h)) ->
       String.eqb
         (backend (h ++ enter_update :: map plot_update (_plots self)))
         "NbAgg" = true
       /\ _figure self = Some f)
    /\ (forall f, In (canvas_flush_events f) (calls_of (_update self h)) ->
          _figure self = Some f)
    /\ (outcome_of (_update self h) = Ok tt ->
        exists f,
          _figure self = Some f
          /\ calls_of (_update self h)
             = enter_update
               :: map plot_update (_plots self)
               ++ matplotlib_get_backend
               :: (if String.eqb
                        (backend (h ++ enter_update
                                    :: map plot_update (_plots self)))
                        "NbAgg"
                   then [canvas_draw f] else [])
               ++ [canvas_flush_events f]
          /\ List.length (filter is_canvas_draw (calls_of (_update self h)))
             = (if String.eqb
                     (backend (h ++ enter_update
                                 :: map plot_update (_plots self)))
                     "NbAgg"
                then 1 else 0)).
Proof.
  intros self h.
  pose proof (_update_canvas self h) as Hc. unfold post in Hc.
  split; [|split].
  - intros f Hin. apply (all_calls_In _ _ _ Hc) in Hin. cbn in Hin.
    apply andb_true_iff in Hin as [Hnb Hf]. split; [exact Hnb|].
    destruct (_figure self) as [g|]; [|discriminate].
    apply fig_eqb_eq in Hf. congruence.
  - intros f Hin. apply (all_calls_In _ _ _ Hc) in Hin. cbn in Hin.
    destruct (_figure self) as [g|]; [|discriminate].
    apply fig_eqb_eq in Hin. congruence.
  - intros Hok.
    pose proof (_update_any self h) as H. unfold post in H.
    destruct H as (_ & _ & Hr). rewrite Hok in Hr.
    destruct Hr as (f & Hf & ->). exists f.
    split; [exact Hf|]. unfold update_calls. cbn [app].
    split; [reflexivity|].
    cbn [filter is_canvas_draw]. rewrite filter_app.
    rewrite (filter_map_none is_canvas_draw) by reflexivity.
    cbn [app filter is_canvas_draw].
    destruct (String.eqb _ "NbAgg"); reflexivity.
Qed.

(** *** [step]: the hand-over to the plots *)



(** *** The figure over any sequence of calls *)

Lemma post_and {A : Type} (m : M A) self h (Q1 Q2 : Outcome A -> _) :
  post m self h Q1 -> post m self h Q2 ->
  post m self h (fun r self1 es => Q1 r self1 es /\ Q2 r self1 es).
Proof. unfold post. auto. Qed.

Lemma creations_app es1 es2 :
  creations (es1 ++ es2) = creations es1 + creations es2.
Proof. unfold creations. rewrite filter_app, length_app. reflexivity. Qed.

Lemma creations_none Q es :
  all_calls Q es -> (forall f, Q (figure_subplots_adjust f) = false) ->
  creations es = 0.
Proof.
  intros Hall HQ. unfold creations. erewrite filter_none; eauto.
  intros [] He; try reflexivity. rewrite HQ in He. discriminate.
Qed.

Lemma creations_map_none {A : Type} (f : A -> Event) l :
  (forall x, is_adjust (f x) = false) -> creations (map f l) = 0.
Proof.
  intros H. unfold creations. rewrite filter_map_none by exact H.
  reflexivity.
Qed.

(** [_initialize] either stops before [plt.subplots] has returned and
    leaves the figure alone, or stores the one figure it was given. *)
Lemma _initialize_creations self h :
  post _initialize self h (fun r self1 es =>
    (creations es = 0 /\ _figure self1 = _figure self)
    \/ (creations es = 1 /\ exists f, _figure self1 = Some f)).
Proof.
  destruct self as [uc fig plots dm].
  destruct plots as [|p [|q l]]; unfold _initialize; wp_fields; norm.
  all: first
    [ left; split; reflexivity
    | right; split;
      [ unfold creations; cbn;
        rewrite ?filter_app;
        rewrite ?filter_map_none by (intros; reflexivity);
        reflexivity
      | eexists; reflexivity ] ].
Qed.

Lemma has_figure_some self f : _figure self = Some f -> has_figure self = 1.
Proof. unfold has_figure. intros ->. reflexivity. Qed.

(** Whatever the collaborators do, a call of [step] creates a figure
    exactly when it takes the object from no figure to a figure, and
    never replaces a figure. *)
Lemma step_creations k state reference action reward done self h :
  has_figure self
  + creations (calls_of (step k state reference action reward done self h))
  = has_figure (self_of (step k state reference action reward done self h))
  /\ (forall f, _figure self = Some f ->
        _figure (self_of (step k state reference action reward done self h))
        = Some f).
Proof.
  assert (Hrest : forall self0 r er,
             rest_cases k (fanout k state reference action reward done)
                        self0 r er ->
             creations er = 0).
  { intros self0 r er Hc. apply rest_calls in Hc as [Hall _].
    apply (creations_none _ _ Hall). reflexivity. }
  change (post (step k state reference action reward done) self h
            (fun r self1 es =>
               has_figure self + creations es = has_figure self1
               /\ forall f, _figure self = Some f ->
                            _figure self1 = Some f)).
  rewrite step_unfold. destruct self as [uc fig plots dm].
  destruct fig as [f|]; wp_fields.
  - eapply post_conseq;
      [apply (step_rest_any k state reference action reward done _ _ f);
       reflexivity|].
    cbv beta. intros r self1 es (-> & Hc). norm.
    rewrite (Hrest _ _ _ Hc). split; [reflexivity|auto].
  - eapply post_conseq;
      [apply post_and; [apply _initialize_any|apply _initialize_creations]|].
    cbv beta.
    intros r self1 ei ((_ & _ & _ & _ & _ & Hr) & Hcr).
    unfold has_figure at 1. cbn [_figure].
    destruct r as [[]|e].
    + destruct Hr as (f & Hf & _ & _).
      eapply post_conseq;
        [apply (step_rest_any k state reference action reward done _ _ f);
         exact Hf|].
      cbv beta. intros r self2 es (-> & Hc). norm.
      rewrite creations_app, (Hrest _ _ _ Hc), (has_figure_some _ _ Hf).
      split; [|discriminate].
      destruct Hcr as [[_ Hsame]|[H1 _]]; [|lia].
      cbn [_figure] in Hsame. congruence.
    + norm. split; [|discriminate].
      destruct Hcr as [[H0 Hsame]|[H1 (f & Hf)]].
      * rewrite H0. unfold has_figure. rewrite Hsame. reflexivity.
      * rewrite H1, (has_figure_some _ _ Hf). reflexivity.
Qed.

Lemma run_method_creations c self h :
  has_figure self + creations (calls_of (run_method c self h))
  = has_figure (self_of (run_method c self h))
  /\ (forall f, _figure self = Some f ->
        _figure (self_of (run_method c self h)) = Some f)
  /\ same_fields (self_of (run_method c self h)) self.
Proof.
  destruct c as [|ps rg rf|k state reference action reward done];
    cbn [run_method].
  - destruct (reset_any self h) as (Hs & Hrun). rewrite Hs.
    split; [|split; [auto|repeat split]].
    destruct Hrun as [E|(pre & plot & rest & _ & _ & E)]; rewrite E;
      unfold calls_of; cbn [snd];
      rewrite creations_map_none by reflexivity; lia.
  - destruct (set_modules_any ps rg rf self h) as (Hs & Hrun). rewrite Hs.
    split; [|split; [auto|repeat split]].
    destruct Hrun as [E|(pre & plot & rest & _ & _ & E)]; rewrite E;
      unfold calls_of; cbn [snd];
      rewrite creations_map_none by reflexivity; lia.
  - destruct (step_creations k state reference action reward done self h)
      as [Hc Hk].
    split; [exact Hc|]. split; [exact Hk|].
    pose proof (step_any k state reference action reward done self h) as H.
    unfold post in H. tauto.
Qed.

Lemma run_methods_cons c cs self h :
  run_methods (c :: cs) self h
  = (fst (run_methods cs (self_of (run_method c self h))
                      (h ++ calls_of (run_method c self h))),
     calls_of (run_method c self h)
     ++ snd (run_methods cs (self_of (run_method c self h))
                         (h ++ calls_of (run_method c self h)))).
Proof.
  cbn [run_methods]. destruct (run_method c self h) as [[r self1] es].
  unfold self_of, calls_of. cbn [fst snd].
  destruct (run_methods cs self1 (h ++ es)). reflexivity.
Qed.

(** X7.  Over any sequence of calls of [reset], [set_modules] and
    [step], whatever the collaborators do and whether or not the calls
    raise: the plot list, the cycle and the dark-mode flag never change;
    a figure, once stored, is never replaced or dropped; and a figure is
    created exactly when the sequence takes the dashboard from no figure
    to a figure, hence at most once. *)
Theorem figure_created_at_most_once :
  forall cs self h,
    same_fields (fst (run_methods cs self h)) self
    /\ has_figure self + creations (snd (run_methods cs self h))
       = has_figure (fst (run_methods cs self h))
    /\ creations (snd (run_methods cs self h)) <= 1
    /\ (forall f, _figure self = Some f ->
          _figure (fst (run_methods cs self h)) = Some f
          /\ creations (snd (run_methods cs self h)) = 0).
Proof.
  assert (Hmain : forall cs self h,
             same_fields (fst (run_methods cs self h)) self
             /\ has_figure self + creations (snd (run_methods cs self h))
                = has_figure (fst (run_methods cs self h))
             /\ (forall f, _figure self = Some f ->
                   _figure (fst (run_methods cs self h)) = Some f)).
  { induction cs as [|c cs IH]; intros self h.
    - cbn. repeat split; auto.
    - rewrite run_methods_cons. cbn [fst snd].
      destruct (run_method_creations c self h) as (Hc & Hk & Hsame).
      set (self1 := self_of _) in *. set (es := calls_of _) in *.
      clearbody self1 es.
      destruct (IH self1 (h ++ es)) as (IHsame & IHc & IHk).
      split; [|split].
      + destruct Hsame as (? & ? & ?), IHsame as (? & ? & ?).
        repeat split; congruence.
      + rewrite creations_app. lia.
      + intros f Hf. auto. }
  intros cs self h. destruct (Hmain cs self h) as (Hsame & Hc & Hk).
  split; [exact Hsame|]. split; [exact Hc|].
  assert (Hle : has_figure (fst (run_methods cs self h)) <= 1).
  { unfold has_figure.
    destruct (_figure (fst (run_methods cs self h))); lia. }
  split; [lia|].
  intros f Hf. split; [auto|].
  rewrite (has_figure_some _ _ Hf) in Hc. lia.
Qed.

(** X8.  A surface creation that fails half way is not tried again.
    When a call of [step] on a dashboard without a figure has got as far
    as receiving the figure from [plt.subplots], the figure is stored
    even if a later call of [_initialize] (a plot's [initialize], say)
    raises and the whole [step] with it.  The next call of [step] then
    does not enter [_initialize] and initializes no plot: its first call
    is [plot.step] on the first plot. *)
Theorem failed_initialize_not_retried :
  forall k state reference action reward done
         k' state' reference' action' reward' done' self h h' plot plots,
    _figure self = None ->
    _plots self = plot :: plots ->
    creations (calls_of (step k state reference action reward done self h))
    = 1 ->
    exists f rest,
      _figure (self_of (step k state reference action reward done self h))
      = Some f
      /\ calls_of
           (step k' state' reference' action' reward' done'
                 (self_of (step k state reference action reward done self h))
                 h')
         = plot_step plot k' state' reference' action' reward' done' :: rest
      /\ ~ In enter_initialize
              (calls_of
                 (step k' state' reference' action' reward' done'
                       (self_of
                          (step k state reference action reward done self h))
                       h'))
      /\ filter is_plot_initialize
           (calls_of
              (step k' state' reference' action' reward' done'
                    (self_of
                       (step k state reference action reward done self h))
                    h'))
         = [].
Proof.
  intros k state reference action reward done
         k' state' reference' action' reward' done' self h h' plot plots
         Hnone Hplots Hone.
  destruct (step_creations k state reference action reward done self h)
    as [Hc _].
  pose proof (step_any k state reference action reward done self h) as H1.
  unfold post in H1. destruct H1 as ((_ & Hp & _) & _).
  set (self1 := self_of (step k state reference action reward done self h))
    in *.
  clearbody self1.
  unfold has_figure in Hc. rewrite Hnone, Hone in Hc.
  destruct (_figure self1) as [f|] eqn:Hf; [|discriminate].
  pose proof (step_any k' state' reference' action' reward' done' self1 h')
    as H2.
  unfold post in H2. destruct H2 as (Hsame & Hcases).
  destruct (step_counts _ _ _ _ _ _ _ _ _ _ Hcases Hsame)
    as (_ & Hkeep & _).
  destruct (Hkeep f Hf) as [Hall _].
  set (es := calls_of
               (step k' state' reference' action' reward' done' self1 h'))
    in *.
  assert (Hhead : exists rest,
             es = plot_step plot k' state' reference' action' reward' done'
                  :: rest).
  { destruct Hcases as [(Hn & _)|(ei & er & Hes & Hsr & Hrest)];
      [congruence|].
    unfold surface_ready in Hsr. rewrite Hf in Hsr.
    destruct Hsr as [-> _]. cbn [app] in Hes. rewrite Hes.
    unfold rest_cases in Hrest.
    destruct Hsame as (_ & Hp2 & _).
    destruct Hrest as [(pre & x & rest & Hl & -> & _)
         |[(_ & -> & _)
         |[(_ & _ & -> & _)
         |(_ & _ & eu & -> & _)]]].
    - rewrite Hp2, Hp, Hplots in Hl.
      destruct pre as [|y pre]; cbn in Hl; inversion Hl; subst;
        cbn; eauto.
    - rewrite Hp2, Hp, Hplots. cbn. eauto.
    - rewrite Hp2, Hp, Hplots. cbn. eauto.
    - rewrite Hp2, Hp, Hplots. cbn. eauto. }
  clearbody es. destruct Hhead as [rest Hes].
  exists f, rest. split; [reflexivity|]. split; [exact Hes|]. split.
  - intros Hin. apply (all_calls_In _ _ _ Hall) in Hin. discriminate.
  - apply (filter_none _ _ _ Hall). intros [] He; try reflexivity.
    discriminate.
Qed.

(** *** The redraws of an episode *)

Lemma div_succ (c a : Z) :
  (0 < c)%Z -> (0 <= a)%Z ->
  ((a + 1) / c = a / c + (if Z.eqb ((a + 1) mod c) 0 then 1 else 0))%Z.
Proof.
  intros Hc Ha.
  pose proof (Z.div_mod a c ltac:(lia)) as E1.
  pose proof (Z.div_mod (a + 1) c ltac:(lia)) as E2.
  pose proof (Z.mod_pos_bound a c Hc) as B1.
  pose proof (Z.mod_pos_bound (a + 1) c Hc) as B2.
  destruct (Z.eqb_spec ((a + 1) mod c) 0) as [Hz|Hnz]; nia.
Qed.

Lemma cadence_count (c : Z) (n : nat) :
  (0 < c)%Z ->
  list_sum (map (redraw_due c) (map Z.of_nat (seq 0 n)))
  = Z.to_nat (Z.of_nat n / c).
Proof.
  intros Hc. induction n as [|n IH].
  - reflexivity.
  - rewrite seq_S, !map_app, list_sum_app, IH.
    cbn [map Nat.add list_sum fold_right].
    rewrite Nat.add_0_r. unfold redraw_due.
    destruct (Z.eqb_spec c 0) as [|_]; [lia|].
    replace (Z.of_nat (S n)) with (Z.of_nat n + 1)%Z by lia.
    rewrite (div_succ c (Z.of_nat n)) by lia.
    pose proof (Z.div_pos (Z.of_nat n) c ltac:(lia) Hc).
    destruct (Z.eqb ((Z.of_nat n + 1) mod c) 0); lia.
Qed.

(** X9.  With collaborators that return, at least one plot (or a surface
    already there) and a positive cycle, the steps [0 .. n-1] of an
    episode make [n / update_cycle] redraws in all, rounded down: one
    per completed cycle.  With a cycle of one, every step redraws. *)
Theorem episode_redraw_count :
  forall n state reference action reward done self h,
    benign ->
    _plots self <> [] \/ _figure self <> None ->
    (0 < _update_cycle self)%Z ->
    list_sum
      (map redraws
           (snd (steps (map Z.of_nat (seq 0 n))
                       state reference action reward done self h)))
    = Z.to_nat (Z.of_nat n / _update_cycle self)
    /\ (_update_cycle self = 1%Z ->
        map redraws
            (snd (steps (map Z.of_nat (seq 0 n))
                        state reference action reward done self h))
        = repeat 1 n).
Proof.
  intros n state reference action reward done self h Hb Hready Hpos.
  destruct (steps_benign state reference action reward done
              (map Z.of_nat (seq 0 n)) Hb self h Hready) as (Hr & _).
  rewrite Hr. split.
  - exact (cadence_count (_update_cycle self) n Hpos).
  - intros ->. clear Hr. rewrite <- (length_seq n 0) at 2.
    induction (seq 0 n) as [|i l IH]; [reflexivity|].
    cbn [map List.length repeat]. rewrite IH. f_equal.
    rewrite Z.mod_1_r. reflexivity.
Qed.

(** *** All public methods together *)

Lemma outcomes_cons c cs self h :
  outcomes (c :: cs) self h
  = outcome_of (run_method c self h)
    :: outcomes cs (self_of (run_method c self h))
                (h ++ calls_of (run_method c self h)).
Proof.
  cbn [outcomes]. destruct (run_method c self h) as [[r self1] es].
  reflexivity.
Qed.

(** X10.  With collaborators that return, at least one plot (or a
    surface already there) and a non-zero cycle, no call of [reset],
    [set_modules] or [step] raises, in whatever order and however often
    they are made: [set_modules] need not come first and [reset] may
    come before the first [step]. *)
Theorem no_method_raises :
  forall cs self h,
    benign ->
    _plots self <> [] \/ _figure self <> None ->
    _update_cycle self <> 0%Z ->
    forall r, In r (outcomes cs self h) -> r = Ok tt.
Proof.
  intros cs self h Hb. revert self h.
  induction cs as [|c cs IH]; intros self h Hready Hnz r Hin;
    [contradiction|].
  rewrite outcomes_cons in Hin.
  assert (Hrun : outcome_of (run_method c self h) = Ok tt
                 /\ (_plots (self_of (run_method c self h)) <> []
                     \/ _figure (self_of (run_method c self h)) <> None)
                 /\ _update_cycle (self_of (run_method c self h)) <> 0%Z).
  { destruct c as [|ps rg rf|k state reference action reward done];
      cbn [run_method].
    - destruct (reset_any self h)
        as (Hs & [E|(pre & plot & rest & _ & Hr & _)]).
      + rewrite Hs, E. auto.
      + rewrite Hb in Hr. discriminate.
    - destruct (set_modules_any ps rg rf self h)
        as (Hs & [E|(pre & plot & rest & _ & Hr & _)]).
      + rewrite Hs, E. auto.
      + rewrite Hb in Hr. discriminate.
    - destruct (step_benign k state reference action reward done self h
                  Hb Hready)
        as (self1 & ei & f & (Hu & Hp & Hd) & _ & Hf
            & [(Hz & _)|(_ & name & E)]); [contradiction|].
      rewrite E. unfold outcome_of, self_of. cbn [fst snd].
      split; [reflexivity|]. split; [right; congruence|congruence]. }
  destruct Hrun as (Hok & Hready1 & Hnz1).
  destruct Hin as [<-|Hin]; [exact Hok|].
  exact (IH _ _ Hready1 Hnz1 r Hin).
Qed.

End Dashboard.

Arguments outcome_of {PyObj A} r.
Arguments self_of {PyObj A} r.
Arguments calls_of {PyObj A} r.
Arguments redraws {PyObj} es.
Arguments surfaces {PyObj} es.
Arguments update_calls {PyObj} self f name.
Arguments initialize_calls {PyObj} self f.

(** ** The theorems at concrete dashboards *)

Abbreviation quiet := (@never_raises unit).
Abbreviation tk := (@backend_is unit "TkAgg").
Abbreviation reward_plot := (PyInstance mdp.RewardPlot []).
Abbreviation one_plot := (mkDashboard 3 None [reward_plot] false).

Lemma quiet_benign : benign unit quiet.
Proof. intros h e. reflexivity. Defined.

Lemma step_redraw_cadence_witness :
  redraws (calls_of (step unit quiet tk 2 tt tt tt tt false one_plot [])) = 1
  /\ (exists self1 pre f name,
         step unit quiet tk 2 tt tt tt tt false one_plot []
         = (Ok tt, self1, pre ++ update_calls one_plot f name)
         /\ redraws pre = 0 /\ _figure self1 = Some f)
  /\ map redraws
       (snd (steps unit quiet tk (map Z.of_nat (seq 0 3)) tt tt tt tt false
                   one_plot []))
     = [0; 0; 1].
Proof.
  destruct (step_redraw_cadence unit quiet tk) as (H1 & H2 & H3).
  split; [|split].
  - apply (H1 2%Z tt tt tt tt false one_plot []); reflexivity.
  - apply (H2 2%Z tt tt tt tt false one_plot []);
      [exact quiet_benign|left; discriminate|discriminate].
  - apply (H3 2 tt tt tt tt false one_plot []);
      [exact quiet_benign|left; discriminate|reflexivity].
Defined.

Abbreviation one_plot_ready :=
  (mkDashboard 3 (Some (Fig 2)) [reward_plot] false).
Abbreviation no_plot := (mkDashboard 1000 None [] false).
Abbreviation zero_cycle := (mkDashboard 0 None [reward_plot] false).

Lemma surface_created_once_witness :
  _figure one_plot = None
  /\ (exists rest,
         calls_of (step unit quiet tk 0 tt tt tt tt false one_plot [])
         = enter_initialize :: rest)
  /\ (_figure (self_of (step unit quiet tk 1 tt tt tt tt false
                             one_plot_ready []))
      = Some (Fig 2)
      /\ surfaces (calls_of (step unit quiet tk 1 tt tt tt tt false
                                  one_plot_ready [])) = 0
      /\ ~ In enter_initialize
              (calls_of (step unit quiet tk 1 tt tt tt tt false
                              one_plot_ready [])))
  /\ (_figure one_plot = None
      /\ 1 = List.length (_plots one_plot) /\ 1 <= 1)
  /\ (map surfaces
        (snd (steps unit quiet tk [0; 1; 2; 3]%Z tt tt tt tt false
                    one_plot []))
      = [1; 0; 0; 0]
      /\ exists f,
           _figure (fst (steps unit quiet tk [0; 1; 2; 3]%Z tt tt tt tt
                               false one_plot [])) = Some f).
Proof.
  destruct (surface_created_once unit quiet tk) as (H1 & H2 & H3).
  destruct (H2 0%Z tt tt tt tt false one_plot []) as (H2a & _ & H2c).
  destruct (H2 1%Z tt tt tt tt false one_plot_ready []) as (_ & H2b & _).
  split; [|split; [|split; [|split]]].
  - apply (H1 [PyStr "reward"] 3%Z false [] one_plot [plt_ion]).
    reflexivity.
  - apply H2a. reflexivity.
  - apply (H2b (Fig 2)). reflexivity.
  - apply (H2c 1). cbn. auto.
  - apply (H3 quiet_benign 0%Z [1; 2; 3]%Z tt tt tt tt false one_plot []);
      [reflexivity|discriminate].
Defined.

Lemma empty_plots_fail_at_first_step_witness :
  (ExternalError = ExternalError
   /\ raises_when (@is_plt_ion unit) [] plt_ion = true)
  /\ __init__ unit quiet [] 1000 false [] = (Ok no_plot, [plt_ion])
  /\ step unit quiet tk 0 tt tt tt tt false no_plot []
     = (Raise (AssertionError "no plot variable selected"), no_plot,
        [enter_initialize; plt_close]).
Proof.
  destruct (empty_plots_fail_at_first_step unit
              (raises_when (@is_plt_ion unit)) tk 1000 false [])
    as (H1 & _).
  destruct (empty_plots_fail_at_first_step unit quiet tk 1000 false [])
    as (_ & H2 & _ & _ & H4).
  destruct (H4 0%Z tt tt tt tt false) as (_ & _ & H4c).
  split; [|split].
  - apply H1. reflexivity.
  - apply H2. reflexivity.
  - apply H4c. reflexivity.
Defined.

Lemma init_resolves_tags_witness :
  __init__ unit quiet [PyStr "reward"; PyStr "action_0"; PyStr "speed"]
           1000 false []
  = (Ok (mkDashboard 1000 None
           [PyInstance mdp.RewardPlot [];
            PyInstance mdp.ActionPlot [PyStr "action_0"];
            PyInstance mdp.StatePlot [PyStr "speed"]] false),
     [plt_ion])
  /\ exists self,
       __init__ unit quiet (map PyStr ["speed"; "action_1"; "reward"])
                1000 false []
       = (Ok self, [plt_ion])
       /\ nth_error (_plots self) 0
          = Some (PyInstance mdp.StatePlot [PyStr "speed"])
       /\ nth_error (_plots self) 1
          = Some (PyInstance mdp.ActionPlot [PyStr "action_1"])
       /\ nth_error (_plots self) 2 = Some (PyInstance mdp.RewardPlot []).
Proof.
  destruct (init_resolves_tags unit quiet) as (H1 & H2).
  split.
  - apply H1. reflexivity.
  - destruct (H2 ["speed"; "action_1"; "reward"] 1000%Z false [] eq_refl)
      as (self & Hrun & _ & Hnth).
    exists self. split; [exact Hrun|]. split; [|split].
    + apply (Hnth 0 "speed" eq_refl); [discriminate|reflexivity].
    + apply (Hnth 1 "action_1" eq_refl). reflexivity.
    + apply (Hnth 2 "reward" eq_refl). reflexivity.
Defined.

Lemma init_accepts_every_tag_witness :
  (ExternalError = ExternalError
   /\ raises_when (@is_plt_ion unit) [] plt_ion = true)
  /\ exists self,
       __init__ unit quiet (map PyStr ["sped"; "reward"]) 1000 false []
       = (Ok self, [plt_ion])
       /\ nth_error (_plots self) 0
          = Some (PyInstance mdp.StatePlot [PyStr "sped"]).
Proof.
  destruct (init_accepts_every_tag unit (raises_when (@is_plt_ion unit))
              ["sped"; "reward"] 1000%Z false []) as (H1 & _).
  destruct (init_accepts_every_tag unit quiet
              ["sped"; "reward"] 1000%Z false []) as (_ & H2).
  split.
  - apply H1. reflexivity.
  - destruct (H2 eq_refl) as (self & Hrun & Hnth).
    exists self. split; [exact Hrun|].
    apply (Hnth 0 "sped" eq_refl); [discriminate|reflexivity].
Defined.

Lemma init_rejects_plot_instance_witness :
  __init__ unit quiet [PyInstance mdp.RewardPlot []] 1000 false []
  = (Raise TypeError, [plt_ion])
  /\ __init__ unit quiet [PyClassObj mdp.RewardPlot] 1000 false []
     = (Ok (mkDashboard 1000 None [PyClassObj mdp.RewardPlot] false),
        [plt_ion]).
Proof.
  destruct (init_rejects_plot_instance unit quiet [] mdp.RewardPlot [] []
              1000%Z false []) as (_ & H2 & H3).
  split; [apply H2|apply H3]; reflexivity.
Defined.

Lemma reset_forwards_witness :
  (ExternalError = ExternalError
   /\ some_call_raised unit (raises_when (@is_plot_reset unit)))
  /\ (reset unit quiet one_plot []
      = (Ok tt, one_plot, [plot_reset reward_plot])
      /\ (bind unit (reset unit quiet) (fun _ => reset unit quiet))
           one_plot []
         = (Ok tt, one_plot,
            [plot_reset reward_plot] ++ [plot_reset reward_plot]))
  /\ _figure (self_of (reset unit quiet one_plot [])) = None.
Proof.
  destruct (reset_forwards unit (raises_when (@is_plot_reset unit)))
    as (H1 & _).
  destruct (H1 one_plot []) as (_ & _ & _ & _ & H1d).
  destruct (reset_forwards unit quiet) as (_ & H2 & H3).
  split; [|split].
  - apply H1d. reflexivity.
  - apply (H2 quiet_benign one_plot []).
  - apply (H3 [PyStr "reward"] 3%Z false [] one_plot [plt_ion] []).
    reflexivity.
Defined.

Lemma single_plot_initialize_witness :
  (ExternalError = ExternalError
   /\ some_call_raised unit (raises_when (@is_plot_initialize unit)))
  /\ exists f,
       _initialize unit quiet one_plot []
       = (Ok tt, mkDashboard 3 (Some f) [reward_plot] false,
          [enter_initialize; plt_close; plt_subplots 1;
           figure_subplots_adjust f; plt_xlabel "t/s";
           plot_initialize reward_plot (OneAxes (Ax f 0)); plt_pause]).
Proof.
  destruct (single_plot_initialize unit
              (raises_when (@is_plot_initialize unit))
              3%Z None reward_plot false []) as (H1 & _).
  destruct (single_plot_initialize unit quiet 3%Z None reward_plot false [])
    as (_ & H2 & _).
  split.
  - apply H1. reflexivity.
  - apply H2. exact quiet_benign.
Defined.

Abbreviation one_plot_setup :=
  ([enter_initialize; plt_close; plt_subplots 1;
    figure_subplots_adjust (Fig 2); plt_xlabel "t/s";
    plot_initialize reward_plot (OneAxes (Ax (Fig 2) 0)); plt_pause]
   : list (Event unit)).

Lemma update_has_surface_witness :
  (returns (outcome_of (_update unit quiet tk one_plot [])) = false
   /\ (benign unit quiet ->
       outcome_of (_update unit quiet tk one_plot [])
       = Raise AttributeError))
  /\ (AssertionError "no plot variable selected" = ExternalError
      \/ AssertionError "no plot variable selected"
         = AssertionError "no plot variable selected"
      \/ AssertionError "no plot variable selected" = ZeroDivisionError)
  /\ (exists f,
         _figure (self_of (step unit quiet tk 2 tt tt tt tt false
                                one_plot [])) = Some f)
  /\ exists f mid,
       one_plot_setup = initialize_calls one_plot f ++ mid
       /\ In (plt_subplots (List.length (_plots one_plot))) one_plot_setup
       /\ forall q, In q (_plots one_plot) ->
            exists axis, In (plot_initialize q axis) one_plot_setup.
Proof.
  destruct (update_has_surface unit quiet tk) as (H1 & H2).
  destruct (H2 0%Z tt tt tt tt false no_plot []) as (H2a & _ & _).
  destruct (H2 2%Z tt tt tt tt false one_plot []) as (_ & H2b & H2c).
  split; [|split; [|split]].
  - apply (H1 one_plot []). reflexivity.
  - apply H2a. reflexivity.
  - apply H2b. reflexivity.
  - apply (H2c eq_refl _ reward_plot
             [enter_update; plot_update reward_plot;
              matplotlib_get_backend; canvas_flush_events (Fig 2)]).
    reflexivity.
Defined.

Lemma zero_cycle_step_fails_witness :
  (returns (outcome_of (step unit quiet tk 5 tt tt tt tt false
                             zero_cycle [])) = false
   /\ redraws (calls_of (step unit quiet tk 5 tt tt tt tt false
                              zero_cycle [])) = 0)
  /\ (exists self1 ei,
         step unit quiet tk 5 tt tt tt tt false zero_cycle []
         = (Raise ZeroDivisionError, self1,
            ei ++ map (fanout unit 5 tt tt tt tt false) (_plots zero_cycle))
         /\ surface_ready unit zero_cycle self1 ei)
  /\ _update_cycle zero_cycle = 0%Z.
Proof.
  destruct (zero_cycle_step_fails unit quiet tk) as (H1 & H2 & H3).
  split; [|split].
  - apply (H1 5%Z tt tt tt tt false zero_cycle []). reflexivity.
  - apply (H2 5%Z tt tt tt tt false zero_cycle []);
      [exact quiet_benign|left; discriminate|reflexivity].
  - destruct (H3 [PyStr "reward"] 0%Z 1000%Z false []) as (_ & H3b).
    apply (H3b zero_cycle [plt_ion]). reflexivity.
Defined.

(** ** The further theorems at concrete dashboards *)

Arguments creations {PyObj} es.
Arguments is_canvas_draw {PyObj} e.

Abbreviation state_plot := (PyInstance mdp.StatePlot [PyStr "omega"]).
Abbreviation two_plots_dark :=
  (mkDashboard 2 None [reward_plot; state_plot] true).
Abbreviation nbagg := (@backend_is unit "NbAgg").

Lemma set_modules_forwards_witness :
  (ExternalError = ExternalError
   /\ some_call_raised unit (raises_when (@is_plot_set_modules unit)))
  /\ set_modules unit quiet tt tt tt two_plots_dark []
     = (Ok tt, two_plots_dark,
        [plot_set_modules reward_plot tt tt tt;
         plot_set_modules state_plot tt tt tt]).
Proof.
  destruct (set_modules_forwards unit
              (raises_when (@is_plot_set_modules unit))
              tt tt tt two_plots_dark []) as (_ & _ & H3 & _).
  destruct (set_modules_forwards unit quiet tt tt tt two_plots_dark [])
    as (_ & _ & _ & H4).
  split.
  - apply H3. reflexivity.
  - apply H4. exact quiet_benign.
Defined.

Lemma init_accepts_exactly_witness :
  __init__ unit quiet [PyStr "omega"; PyClassObj mdp.ActionPlot] 10 true []
  = (Ok (mkDashboard 10 None [state_plot; PyClassObj mdp.ActionPlot] true),
     [plt_ion])
  /\ __init__ unit quiet
              [PyStr "omega"; PyClassObj (mkClass "int" ["object"]); PyNone]
              10 true []
     = (Raise (AssertionError EmptyString), [plt_ion])
  /\ __init__ unit quiet [PyStr "omega"; PyNone; PyStr "reward"] 10 true []
     = (Raise TypeError, [plt_ion]).
Proof.
  split; [|split].
  - apply (init_accepts_exactly unit quiet
             [PyStr "omega"; PyClassObj mdp.ActionPlot] 10%Z true []);
      reflexivity.
  - apply (init_accepts_exactly unit quiet
             [PyStr "omega"; PyClassObj (mkClass "int" ["object"]); PyNone]
             10%Z true [] eq_refl)
      with (pre := [PyStr "omega"])
           (v := PyClassObj (mkClass "int" ["object"]))
           (rest := [PyNone]); reflexivity.
  - apply (init_accepts_exactly unit quiet
             [PyStr "omega"; PyNone; PyStr "reward"] 10%Z true [] eq_refl)
      with (pre := [PyStr "omega"]) (v := PyNone)
           (rest := [PyStr "reward"]); reflexivity.
Defined.

Lemma initialize_rows_witness :
  (ExternalError = ExternalError
   /\ some_call_raised unit (raises_when (@is_plot_initialize unit)))
  /\ exists f,
       outcome_of (_initialize unit quiet two_plots_dark []) = Ok tt
       /\ _figure (self_of (_initialize unit quiet two_plots_dark []))
          = Some f
       /\ nth_error
            (filter is_plot_initialize
                    (calls_of (_initialize unit quiet two_plots_dark [])))
            1
          = Some (plot_initialize state_plot (OneAxes (Ax f 1))).
Proof.
  destruct (initialize_rows unit (raises_when (@is_plot_initialize unit))
              two_plots_dark []) as (H1 & _); [discriminate|].
  destruct (initialize_rows unit quiet two_plots_dark [])
    as (_ & H2); [discriminate|].
  split.
  - apply H1. reflexivity.
  - destruct (H2 quiet_benign) as (f & Hok & Hf & _ & _ & _ & Hrow).
    exists f. split; [exact Hok|]. split; [exact Hf|].
    apply (Hrow 1 state_plot). reflexivity.
Defined.

Lemma dark_mode_style_witness :
  (_dark_mode two_plots_dark = true
   /\ "dark_background" = "dark_background")
  /\ exists rest,
       calls_of (_initialize unit quiet two_plots_dark [])
       = [enter_initialize; plt_close; plt_style_use "dark_background";
          plt_subplots 2] ++ rest.
Proof.
  destruct (dark_mode_style unit quiet two_plots_dark []) as (H1 & H2).
  split.
  - apply (H1 "dark_background"). cbn. auto.
  - destruct (H2 quiet_benign) as (rest & Hc & _); [discriminate|].
    exists rest. exact Hc.
Defined.

Lemma update_draws_on_nbagg_witness :
  ((String.eqb "NbAgg" "NbAgg" = true
    /\ _figure one_plot_ready = Some (Fig 2))
   /\ _figure one_plot_ready = Some (Fig 2))
  /\ exists f,
       _figure one_plot_ready = Some f
       /\ calls_of (_update unit quiet nbagg one_plot_ready [])
          = [enter_update; plot_update reward_plot; matplotlib_get_backend;
             canvas_draw f; canvas_flush_events f]
       /\ List.length
            (filter is_canvas_draw
                    (calls_of (_update unit quiet tk one_plot_ready [])))
          = 0.
Proof.
  destruct (update_draws_on_nbagg unit quiet nbagg one_plot_ready [])
    as (H1 & H2 & H3).
  destruct (update_draws_on_nbagg unit quiet tk one_plot_ready [])
    as (_ & _ & H3').
  split; [split|].
  - apply (H1 (Fig 2)). cbn. tauto.
  - apply (H2 (Fig 2)). cbn. tauto.
  - destruct (H3 eq_refl) as (f & Hf & Hc & _).
    destruct (H3' eq_refl) as (f' & _ & _ & Hn).
    exists f. split; [exact Hf|]. split; [exact Hc|exact Hn].
Defined.


Lemma figure_created_at_most_once_witness :
  _figure (fst (run_methods unit quiet tk
                  [call_reset unit; call_step unit 0 tt tt tt tt false;
                   call_reset unit; call_step unit 1 tt tt tt tt false]
                  one_plot_ready []))
  = Some (Fig 2)
  /\ creations
       (snd (run_methods unit quiet tk
               [call_reset unit; call_step unit 0 tt tt tt tt false;
                call_reset unit; call_step unit 1 tt tt tt tt false]
               one_plot_ready []))
     = 0.
Proof.
  destruct (figure_created_at_most_once unit quiet tk
              [call_reset unit; call_step unit 0 tt tt tt tt false;
               call_reset unit; call_step unit 1 tt tt tt tt false]
              one_plot_ready []) as (_ & _ & _ & H).
  apply (H (Fig 2)). reflexivity.
Defined.

Lemma failed_initialize_not_retried_witness :
  outcome_of (step unit (raises_when (@is_plot_initialize unit)) tk
                   0 tt tt tt tt false one_plot [])
  = Raise ExternalError
  /\ exists f rest,
       _figure (self_of (step unit (raises_when (@is_plot_initialize unit))
                              tk 0 tt tt tt tt false one_plot []))
       = Some f
       /\ calls_of
            (step unit (raises_when (@is_plot_initialize unit)) tk
                  1 tt tt tt tt false
                  (self_of (step unit
                                 (raises_when (@is_plot_initialize unit))
                                 tk 0 tt tt tt tt false one_plot []))
                  [])
          = plot_step reward_plot 1 tt tt tt tt false :: rest.
Proof.
  split; [reflexivity|].
  destruct (failed_initialize_not_retried unit
              (raises_when (@is_plot_initialize unit)) tk
              0%Z tt tt tt tt false 1%Z tt tt tt tt false
              one_plot [] [] reward_plot [] eq_refl eq_refl eq_refl)
    as (f & rest & Hf & Hc & _).
  exists f, rest. auto.
Defined.

Lemma episode_redraw_count_witness :
  list_sum
    (map redraws
         (snd (steps unit quiet tk (map Z.of_nat (seq 0 10))
                     tt tt tt tt false one_plot [])))
  = 3.
Proof.
  apply (episode_redraw_count unit quiet tk 10 tt tt tt tt false
           one_plot []);
    [exact quiet_benign|left; discriminate|reflexivity].
Defined.

Lemma no_method_raises_witness :
  outcome_of (step unit quiet tk 2 tt tt tt tt false one_plot []) = Ok tt.
Proof.
  apply (no_method_raises unit quiet tk
           [call_reset unit; call_step unit 2 tt tt tt tt false]
           one_plot [] quiet_benign);
    [left; discriminate|discriminate|].
  cbn. auto.
Defined.
